(** * Verification of comprehensive_30sec_generator.py

    A shallow embedding of the segment planner, the clip encoder, the batch
    loop, the report statistics and the progress record of
    [src/comprehensive_30sec_generator.py], with the properties its
    specification states about them.

    Numbers.  Python integers are [Z].  Durations arrive as Python floats
    ([clip.duration]); every finite float is a rational, and the planner only
    compares them with integers and subtracts an integer from them, which is
    exact on the values the loop can reach, so durations are [Q].  The
    report divides, multiplies and rounds floats: there every operation is
    followed by [to_double], the rounding of its exact result to the nearest
    double.  The estimate and the batch percentage are kept as exact values.
    NaN, infinities and overflow are outside the model. *)

From Stdlib Require Import ZArith QArith Qround Qabs Qpower.
From Stdlib Require Import Bool List Ascii String.
From Stdlib Require Import Lia Lqa.
From Stdlib Require Import Sorting.Sorted.
Import ListNotations.

Local Open Scope string_scope.
Local Open Scope list_scope.
Local Open Scope Z_scope.

(** ** Numbers *)

Definition Qlt_bool (x y : Q) : bool := negb (Qle_bool y x).

(** Python's [int(x)] on a number: truncation toward zero. *)
Definition int_of_Q (x : Q) : Z := Z.quot (Qnum x) (Z.pos (Qden x)).

(** Python's [round(x, 2)]: the nearest multiple of 1/100, ties to the even
    multiple. *)
Definition round2 (x : Q) : Q :=
  let y := (x * 100)%Q in
  let f := Qfloor y in
  let r := (y - inject_Z f)%Q in
  let n :=
    if Qlt_bool r (1 # 2) then f
    else if Qlt_bool (1 # 2) r then f + 1
    else if Z.even f then f else f + 1 in
  (inject_Z n / 100)%Q.

(** *** Binary floating point

    A Python float is a double: a rational [m * 2^e] with [|m| < 2^53] and
    [e >= -1074].  Every float operation returns the double nearest to its
    exact result, ties going to the even significand. *)

(** The integer nearest to [y], ties to the even one. *)
Definition round_half_even (y : Q) : Z :=
  let f := Qfloor y in
  let r := (y - inject_Z f)%Q in
  if Qlt_bool r (1 # 2) then f
  else if Qlt_bool (1 # 2) r then f + 1
  else if Z.even f then f else f + 1.

Definition pow2 (k : Z) : Q := Qpower 2 k.

(** [floor(log2 x)] for [x > 0]: the quotient of two integers of [a] and
    [b] bits lies between [2^(a-b-1)] and [2^(a-b+1)]. *)
Definition ilog2 (x : Q) : Z :=
  let e := Z.log2 (Qnum x) - Z.log2 (Z.pos (Qden x)) in
  if Qle_bool (pow2 e) x then e else e - 1.

(** The spacing of the doubles around [x]: 53 significant bits, and
    [2^-1074] below [2^-1022]. *)
Definition ulp (x : Q) : Q :=
  pow2 (Z.max (ilog2 (Qabs x)) (-1022) - 52).

(** The double nearest to [x]. *)
Definition to_double (x : Q) : Q :=
  if Qeq_bool x 0 then 0%Q
  else Qred (inject_Z (round_half_even (x / ulp x)) * ulp x).

(** [round(x, 2)] of a float [x]: the double nearest to the multiple of
    1/100 nearest to [x]. *)
Definition py_round2 (x : Q) : Q := to_double (round2 x).

(** ** Formatted strings

    An f-string is kept as its sequence of pieces: the literal text and the
    values substituted into it, each with its format specification.  How a
    number is rendered as characters is not modelled. *)

Inductive FPiece : Type :=
| Lit (s : string)                 (* literal text, or a substituted string *)
| Num (x : Q)                      (* [{x}] or [str(x)] of a number *)
| NumSpec (spec : string) (x : Q). (* [{x:spec}] *)

Definition FString : Type := list FPiece.

(** [os.path.join(directory, name)] *)
Record Path : Type := mkPath {
  path_dir : option string;
  path_name : FString
}.

Definition os_path_join (directory : string) (name : FString) : Path :=
  mkPath (Some directory) name.

(** ** Exceptions *)

Inductive exn : Type :=
| TimeoutExpired (msg : string)   (* subprocess.TimeoutExpired *)
| Exception (msg : string).       (* any other exception *)

Inductive Result (A : Type) : Type :=
| Ok (a : A)
| Raise (e : exn).
Arguments Ok {A} a.
Arguments Raise {A} e.

(** [str(e)] *)
Definition str_exn (e : exn) : string :=
  match e with
  | TimeoutExpired msg => msg
  | Exception msg => msg
  end.

(** ** class Config *)

Record Config : Type := mkConfig {
  OUTPUT_DIR : string;
  CLIP_DURATION : Z;
  OVERLAP_DURATION : Z;
  MIN_CLIP_DURATION : Z;
  AUDIO_FADE_DURATION : Q;
  VIDEO_CRF : Z;
  AUDIO_BITRATE : string;
  SAMPLE_RATE : Z;
  MAX_CLIPS_PER_VIDEO : Z;
  VIDEO_CODEC : string;
  AUDIO_CODEC : string
}.

(** The values the source file configures. *)
Definition default_Config : Config :=
  {| OUTPUT_DIR := "all_30sec_shorts";
     CLIP_DURATION := 30;
     OVERLAP_DURATION := 5;
     MIN_CLIP_DURATION := 25;
     AUDIO_FADE_DURATION := 2 # 10;
     VIDEO_CRF := 18;
     AUDIO_BITRATE := "192k";
     SAMPLE_RATE := 44100;
     MAX_CLIPS_PER_VIDEO := 100;
     VIDEO_CODEC := "libx264";
     AUDIO_CODEC := "aac" |}.

(** ** Global progress tracking *)

Record ProgressState : Type := mkProgress {
  status : string;
  message : FString;
  progress : Z;
  total_clips : Z;
  current_clip : Z;
  error : option string
}.

(** The initial value of the global [progress_state]. *)
Definition progress_state_init : ProgressState :=
  mkProgress "idle" [Lit ""] 0 0 0 None.

(** [update_progress]: [progress_state.update({...})] with all six keys.
    The arguments the callers leave out are the defaults [0]. *)
Definition update_progress (status : string) (message : FString)
    (progress total_clips current_clip : Z) (_ : ProgressState)
    : ProgressState :=
  mkProgress status message progress total_clips current_clip None.

(** The two assignments of the [except] handler of [generate_shorts]:
    [progress_state['status'] = 'error'], [progress_state['error'] = str(e)]. *)
Definition error_handler (e : exn) (s : ProgressState) : ProgressState :=
  mkProgress "error" (message s) (progress s) (total_clips s)
             (current_clip s) (Some (str_exn e)).

(** ** Segments: the dictionaries [calculate_all_clip_segments] appends *)

Record Segment : Type := mkSegment {
  start_time : Q;
  end_time : Q;
  duration : Q;
  clip_number : Z;
  is_final_clip : bool
}.

Section WithConfig.

Variable cfg : Config.

Definition step_size : Z := CLIP_DURATION cfg - OVERLAP_DURATION cfg.

(** The [while] loop of [calculate_all_clip_segments].  [fuel] bounds the
    number of iterations; [None] means the fuel ran out while the loop guard
    still held.  [segments ++ [s]] is [segments.append(s)]. *)
Fixpoint segments_loop (fuel : nat) (video_duration : Q)
    (start_time clip_count : Z) (segments : list Segment)
    : option (list Segment) :=
  if Qlt_bool (inject_Z start_time) video_duration
     && (clip_count <? MAX_CLIPS_PER_VIDEO cfg)
  then
    match fuel with
    | O => None
    | S fuel' =>
        let end_time := start_time + CLIP_DURATION cfg in
        if Qlt_bool video_duration (inject_Z end_time) then
          let end_time := video_duration in
          let actual_duration := (end_time - inject_Z start_time)%Q in
          if Qle_bool (inject_Z (MIN_CLIP_DURATION cfg)) actual_duration then
            Some (segments ++
                  [mkSegment (inject_Z start_time) end_time actual_duration
                             (clip_count + 1) true])
          else Some segments
        else
          segments_loop fuel' video_duration
            (start_time + step_size) (clip_count + 1)
            (segments ++
             [mkSegment (inject_Z start_time) (inject_Z end_time)
                        (inject_Z (CLIP_DURATION cfg))
                        (clip_count + 1) false])
    end
  else Some segments.

Definition calculate_all_clip_segments (video_duration : Q)
    : option (list Segment) :=
  segments_loop (Z.to_nat (MAX_CLIPS_PER_VIDEO cfg)) video_duration 0 0 [].

(** ** The clip encoder *)

(** An element of the argument list given to [subprocess.run]. *)
Inductive Arg : Type :=
| Text (f : FString)
| File (p : Path).

(** The audio filter f-string following ['-af']. *)
Definition audio_filters (duration : Q) : FString :=
  [ Lit "afade=t=in:st=0:d="; Num (AUDIO_FADE_DURATION cfg); Lit ",";
    Lit "afade=t=out:st="; Num (duration - AUDIO_FADE_DURATION cfg)%Q;
    Lit ":d="; Num (AUDIO_FADE_DURATION cfg); Lit ",";
    Lit "highpass=f=80,";
    Lit "lowpass=f=12000,";
    Lit "acompressor=threshold=0.1:ratio=3:attack=5:release=50,";
    Lit "loudnorm=I=-16:LRA=11:TP=-1.5" ].

(** The list [cmd] built by [_create_30sec_clip]. *)
Definition ffmpeg_cmd (video_path : string) (segment : Segment)
    (output_path : Path) : list Arg :=
  let start_time := start_time segment in
  let duration := duration segment in
  [ Text [Lit "ffmpeg"]; Text [Lit "-y"];
    Text [Lit "-ss"]; Text [Num start_time];
    Text [Lit "-i"]; Text [Lit video_path];
    Text [Lit "-t"]; Text [Num duration];
    Text [Lit "-c:v"]; Text [Lit (VIDEO_CODEC cfg)];
    Text [Lit "-preset"]; Text [Lit "fast"];
    Text [Lit "-crf"]; Text [Num (inject_Z (VIDEO_CRF cfg))];
    Text [Lit "-profile:v"]; Text [Lit "high"];
    Text [Lit "-level"]; Text [Lit "4.0"];
    Text [Lit "-pix_fmt"]; Text [Lit "yuv420p"];
    Text [Lit "-movflags"]; Text [Lit "+faststart"];
    Text [Lit "-c:a"]; Text [Lit (AUDIO_CODEC cfg)];
    Text [Lit "-b:a"]; Text [Lit (AUDIO_BITRATE cfg)];
    Text [Lit "-ar"]; Text [Num (inject_Z (SAMPLE_RATE cfg))];
    Text [Lit "-ac"]; Text [Lit "2"];
    Text [Lit "-af"]; Text (audio_filters duration);
    File output_path ].

(** What the outside world answers to one [subprocess.run(cmd, timeout=180)]
    and to the file checks that follow it: the call returns with a return
    code, leaving the output file present or not and of some size, or it
    raises ([TimeoutExpired] after 180 seconds, or any other exception). *)
Inductive RunResult : Type :=
| Completed (returncode : Z) (output_exists : bool) (file_size : Z)
| Raised (e : exn).

(** [_create_30sec_clip]; both [except] clauses return [False]. *)
Definition _create_30sec_clip (subprocess_run : list Arg -> RunResult)
    (video_path : string) (segment : Segment) (output_path : Path) : bool :=
  match subprocess_run (ffmpeg_cmd video_path segment output_path) with
  | Completed returncode output_exists file_size =>
      if (returncode =? 0) && output_exists then
        if 500000 <? file_size then true else false
      else false
  | Raised (TimeoutExpired _) => false
  | Raised _ => false
  end.

(** [os.path.getsize(output_path)] after a call that left the file. *)
Definition getsize (r : RunResult) : Z :=
  match r with
  | Completed _ _ file_size => file_size
  | Raised _ => 0
  end.

(** ** The batch loop *)

(** The dictionaries [create_all_30sec_clips] appends to [created_clips]. *)
Record Clip : Type := mkClip {
  c_path : Path;
  c_clip_number : Z;
  c_start_time : Q;
  c_end_time : Q;
  c_duration : Q;
  c_filename : FString;
  c_size_mb : Q
}.

(** A Python [str] is a sequence of code points.  The titles and names of
    this development are [string]s, of 8-bit characters read as the code
    points below 256; [_sanitize_filename] is modelled on code points of
    any size. *)
Definition code_points (s : string) : list N :=
  map N_of_ascii (list_ascii_of_string s).

Definition str_of_code_points (l : list N) : string :=
  string_of_list_ascii (map ascii_of_N l).

(** The nine characters of [invalid_chars]: [<], [>], [:], the double
    quote, [/], the backslash, [|], [?] and [*]. *)
Definition invalid_chars : list N :=
  [60; 62; 58; 34; 47; 92; 124; 63; 42]%N.

Definition is_in (c : N) (l : list N) : bool :=
  existsb (N.eqb c) l.

Fixpoint lstrip (chars : list N) (l : list N) : list N :=
  match l with
  | [] => []
  | c :: l' => if is_in c chars then lstrip chars l' else l
  end.

Definition strip (chars : list N) (l : list N) : list N :=
  rev (lstrip chars (rev (lstrip chars l))).

(** [_sanitize_filename]: each invalid character replaced by an
    underscore (95), at most the first 100 code points kept, dots (46) and
    spaces (32) stripped at both ends. *)
Definition _sanitize_filename (filename : list N) : list N :=
  let l := map (fun c => if is_in c invalid_chars then 95%N else c)
             filename in
  let l := if (100 <? List.length l)%nat then firstn 100 l else l in
  strip [46; 32]%N l.

Definition callback_type : Type :=
  string -> FString -> Z -> Z -> Z -> ProgressState -> ProgressState.

Definition output_filename_of (clean_title : string) (segment : Segment)
    : FString :=
  [ Lit clean_title; Lit "_clip_";
    NumSpec "03d" (inject_Z (clip_number segment)); Lit "_";
    NumSpec ".0f" (start_time segment); Lit "s.mp4" ].

(** The [for i, segment in enumerate(segments)] loop of
    [create_all_30sec_clips]: [rest] are the segments still to do, [i] the
    index of the first of them, [total] is [len(segments)].  The outside world
    is asked once per iteration. *)
Fixpoint clips_loop (subprocess_run : nat -> list Arg -> RunResult)
    (video_path clean_title : string) (progress_callback : option callback_type)
    (total : nat) (i : nat) (rest : list Segment)
    (created_clips : list Clip) (s : ProgressState)
    : list Clip * ProgressState :=
  match rest with
  | [] => (created_clips, s)
  | segment :: rest' =>
      let s :=
        match progress_callback with
        | Some callback =>
            let progress_percent :=
              40 + int_of_Q ((inject_Z (Z.of_nat i)
                              / inject_Z (Z.of_nat total)) * 50)%Q in
            callback "processing"
              [ Lit "Generating clip "; Num (inject_Z (Z.of_nat i + 1));
                Lit "/"; Num (inject_Z (Z.of_nat total)); Lit "..." ]
              progress_percent (Z.of_nat total) (Z.of_nat i + 1) s
        | None => s
        end in
      let output_filename := output_filename_of clean_title segment in
      let output_path := os_path_join (OUTPUT_DIR cfg) output_filename in
      let success :=
        _create_30sec_clip (subprocess_run i) video_path segment output_path in
      let created_clips :=
        if success then
          created_clips ++
          [ mkClip output_path (clip_number segment) (start_time segment)
                   (end_time segment) (duration segment) output_filename
                   (inject_Z (getsize
                      (subprocess_run i
                         (ffmpeg_cmd video_path segment output_path)))
                    / inject_Z (1024 * 1024))%Q ]
        else created_clips in
      clips_loop subprocess_run video_path clean_title progress_callback
        total (S i) rest' created_clips s
  end.

(** [create_all_30sec_clips].  [probe] is what
    [VideoFileClip(video_path).duration] gives; [None] only if the planner
    ran out of fuel. *)
Definition create_all_30sec_clips (probe : string -> Result Q)
    (subprocess_run : nat -> list Arg -> RunResult)
    (video_path title : string) (progress_callback : option callback_type)
    (s : ProgressState) : option (list Clip * ProgressState) :=
  match probe video_path with
  | Raise _ => Some ([], s)
  | Ok video_duration =>
      match calculate_all_clip_segments video_duration with
      | None => None
      | Some [] => Some ([], s)
      | Some segments =>
          let clean_title :=
            str_of_code_points (_sanitize_filename (code_points title)) in
          Some (clips_loop subprocess_run video_path clean_title
                  progress_callback (List.length segments) 0 segments [] s)
      end
  end.

(** ** The report *)

(** The [metadata] dictionary built by [download_video]. *)
Record Metadata : Type := mkMetadata {
  md_title : string;
  md_duration : Q;
  md_uploader : string;
  md_description : string;
  md_view_count : Z;
  md_upload_date : string
}.

(** The [report] dictionary, its two nested dictionaries flattened. *)
Record Report : Type := mkReport {
  total_clips_created : Z;
  total_duration_generated : Q;
  original_video_duration : Q;
  video_coverage_percentage : Q;
  video_title : string;
  video_uploader : string;
  processing_timestamp : string;
  clip_details : list Clip;
  average_clip_duration : Q;
  shortest_clip : Q;
  longest_clip : Q;
  total_output_size_mb : Q;
  average_file_size_mb : Q
}.

(** Python's [sum], [min] and [max] over a generator of numbers.  [sum]
    adds from left to right starting at 0, each addition a float addition
    (exact on integers); interpreters from 3.12 on compensate the rounding
    errors of the additions, which makes no difference while at most the
    last number is not an integer, as for the durations of a plan. *)
Definition sum_of (l : list Q) : Q :=
  fold_left (fun acc y => to_double (acc + y)) l 0%Q.

Definition min_of (l : list Q) : Q :=
  match l with
  | [] => 0%Q
  | x :: l' => fold_left (fun m y => if Qlt_bool y m then y else m) l' x
  end.

Definition max_of (l : list Q) : Q :=
  match l with
  | [] => 0%Q
  | x :: l' => fold_left (fun m y => if Qlt_bool m y then y else m) l' x
  end.

(** [x / y]: [ZeroDivisionError] when [y] is zero, else the double nearest
    to the quotient. *)
Definition py_div (x y : Q) : Result Q :=
  if Qeq_bool y 0 then Raise (Exception "division by zero")
  else Ok (to_double (x / y)).

(** [coverage_percentage], before it is rounded:
    [(total_duration / video_duration * 100) if video_duration > 0 else 0]. *)
Definition coverage_percentage (total_duration video_duration : Q)
    : Result Q :=
  if Qlt_bool 0 video_duration
  then match py_div total_duration video_duration with
       | Raise e => Raise e
       | Ok q => Ok (to_double (q * 100))
       end
  else Ok 0%Q.

(** The statistics and the [report] dictionary of
    [generate_comprehensive_report], in the order the source evaluates
    them; [now] is [time.strftime(...)].  A division by zero leaves the
    function as an exception. *)
Definition build_report (created_clips : list Clip) (metadata : Metadata)
    (now : string) : Result Report :=
  let total_duration := sum_of (map c_duration created_clips) in
  let video_duration := md_duration metadata in
  match coverage_percentage total_duration video_duration with
  | Raise e => Raise e
  | Ok coverage =>
      let n := inject_Z (Z.of_nat (List.length created_clips)) in
      match py_div total_duration n with
      | Raise e => Raise e
      | Ok average_duration =>
          let total_size := sum_of (map c_size_mb created_clips) in
          match py_div total_size n with
          | Raise e => Raise e
          | Ok average_size =>
              Ok {| total_clips_created :=
                      Z.of_nat (List.length created_clips);
                    total_duration_generated := total_duration;
                    original_video_duration := video_duration;
                    video_coverage_percentage := py_round2 coverage;
                    video_title := md_title metadata;
                    video_uploader := md_uploader metadata;
                    processing_timestamp := now;
                    clip_details := created_clips;
                    average_clip_duration := average_duration;
                    shortest_clip := min_of (map c_duration created_clips);
                    longest_clip := max_of (map c_duration created_clips);
                    total_output_size_mb := total_size;
                    average_file_size_mb := average_size |}
          end
      end
  end.

(** [generate_comprehensive_report]: the returned path and, when a report
    was written, the report.  [write_json] is the [open]/[json.dump] pair. *)
Definition generate_comprehensive_report
    (write_json : Path -> Report -> Result unit) (now : string)
    (created_clips : list Clip) (metadata : Metadata) (output_dir : string)
    : Result (Path * option Report) :=
  match created_clips with
  | [] => Ok (mkPath None [Lit "No clips were created"], None)
  | _ :: _ =>
      match build_report created_clips metadata now with
      | Raise e => Raise e
      | Ok report =>
          let report_path := os_path_join output_dir [Lit "report.json"] in
          match write_json report_path report with
          | Raise e => Raise e
          | Ok _ => Ok (report_path, Some report)
          end
      end
  end.

(** ** The outside world of one run *)

(** One call of [progress_hook] by the downloader: status ['downloading']
    with a percentage string that parses ([Some p]) or not ([None]), status
    ['finished'], or another status. *)
Inductive HookEvent : Type :=
| HookDownloading (percentage : option Q)
| HookFinished
| HookOther.

Record World : Type := mkWorld {
  (* yt_dlp: the hook calls made, then the file path and metadata, or an
     exception *)
  w_download : string -> list HookEvent * Result (string * Metadata);
  (* VideoFileClip(video_path).duration *)
  w_probe : string -> Result Q;
  (* subprocess.run for the i-th window of the batch *)
  w_run : nat -> list Arg -> RunResult;
  (* open(path, 'w') and json.dump *)
  w_write_json : Path -> Report -> Result unit;
  (* open(path, 'r') and json.load of a file this run did not write *)
  w_read_json : Path -> Result Report;
  (* time.strftime('%Y-%m-%d %H:%M:%S') *)
  w_now : string
}.

(** [progress_hook] inside [download_video]. *)
Definition progress_hook (d : HookEvent) (s : ProgressState) : ProgressState :=
  match d with
  | HookDownloading (Some percentage) =>
      let overall_progress := (10 + percentage * (2 # 10))%Q in
      update_progress "downloading"
        [Lit "Downloading... "; NumSpec ".1f" percentage; Lit "%"]
        (int_of_Q overall_progress) 0 0 s
  | HookDownloading None => s
  | HookFinished =>
      update_progress "downloading" [Lit "Download complete, processing..."]
        30 0 0 s
  | HookOther => s
  end.

(** [download_video]: the hooks run during the download, then the result. *)
Definition download_video (w : World) (url : string) (s : ProgressState)
    : Result (string * string * Metadata) * ProgressState :=
  let (events, r) := w_download w url in
  let s := fold_left (fun s d => progress_hook d s) events s in
  match r with
  | Raise e => (Raise e, s)
  | Ok (video_path, metadata) => (Ok (video_path, md_title metadata, metadata), s)
  end.

(** ** The endpoint *)

(** The expected number of clips [generate_shorts] announces. *)
Definition expected_clips (video_duration : Q) : Z :=
  Z.min (int_of_Q (video_duration / inject_Z step_size)%Q + 1)
        (MAX_CLIPS_PER_VIDEO cfg).

Record Request : Type := mkRequest {
  url : option string;
  output_dir : option string
}.

Inductive Response : Type :=
| JsonError (msg : string) (code : Z)
| JsonReport (report : Report).

(** The body of the [try] block of [generate_shorts]: the response or the
    exception that leaves the block, and the progress record then. *)
Definition generate_shorts_body (w : World) (data : Request)
    (s : ProgressState) : option (Result Response * ProgressState) :=
  let output_dir :=
    match output_dir data with
    | Some d => d
    | None => "all_30sec_shorts"
    end in
  match url data with
  | None | Some "" => Some (Ok (JsonError "URL is required" 400), s)
  | Some url =>
      let s := update_progress "downloading" [Lit "Starting download..."] 0 0 0 s in
      let s := update_progress "downloading"
                 [Lit "Downloading YouTube video..."] 10 0 0 s in
      match download_video w url s with
      | (Raise e, s) => Some (Raise e, s)
      | (Ok (video_path, title, metadata), s) =>
          let s := update_progress "downloading" [Lit "Download complete!"]
                     30 0 0 s in
          let s := update_progress "processing"
                     [Lit "Calculating clip segments..."] 35 0 0 s in
          let s :=
            match w_probe w video_path with
            | Ok video_duration =>
                if step_size =? 0 then
                  update_progress "processing" [Lit "Generating shorts..."]
                    40 0 0 s
                else
                  let expected := expected_clips video_duration in
                  update_progress "processing"
                    [Lit "Generating "; Num (inject_Z expected);
                     Lit " shorts..."] 40 expected 0 s
            | Raise _ =>
                update_progress "processing" [Lit "Generating shorts..."]
                  40 0 0 s
            end in
          match create_all_30sec_clips (w_probe w) (w_run w) video_path title
                  (Some update_progress) s with
          | None => None
          | Some (created_clips, s) =>
              let s := update_progress "processing"
                         [Lit "Creating final report..."] 90 0 0 s in
              let n := Z.of_nat (List.length created_clips) in
              let finish (report : Report) (s : ProgressState) :=
                (Ok (JsonReport report),
                 update_progress "complete"
                   [Lit "Successfully generated "; Num (inject_Z n);
                    Lit " shorts!"] 100 n n s) in
              match generate_comprehensive_report (w_write_json w) (w_now w)
                      created_clips metadata output_dir with
              | Raise e => Some (Raise e, s)
              | Ok (_, Some report) => Some (finish report s)
              | Ok (report_path, None) =>
                  match w_read_json w report_path with
                  | Raise e => Some (Raise e, s)
                  | Ok report => Some (finish report s)
                  end
              end
          end
      end
  end.

(** [generate_shorts]: the [try] block and its [except Exception] handler. *)
Definition generate_shorts (w : World) (data : Request) (s : ProgressState)
    : option (Response * ProgressState) :=
  match generate_shorts_body w data s with
  | None => None
  | Some (Ok response, s) => Some (response, s)
  | Some (Raise e, s) => Some (JsonError (str_exn e) 500, error_handler e s)
  end.

End WithConfig.

(** ** Properties of a plan, as predicates *)

(** The start times are strictly increasing. *)
Definition increasing_starts (segments : list Segment) : Prop :=
  StronglySorted Qlt (map start_time segments).

(** The clip numbers are 1, 2, ..., N. *)
Definition numbered_from_1 (segments : list Segment) : Prop :=
  map clip_number segments
  = map Z.of_nat (seq 1 (List.length segments)).

(** What the loop guarantees of each window it emits for a video of
    duration [d]. *)
Definition segment_ok (cfg : Config) (d : Q) (s : Segment) : Prop :=
  (end_time s <= d)%Q /\
  if is_final_clip s
  then end_time s = d /\
       duration s = (end_time s - start_time s)%Q /\
       (inject_Z (MIN_CLIP_DURATION cfg) <= duration s)%Q /\
       (duration s < inject_Z (CLIP_DURATION cfg))%Q
  else duration s = inject_Z (CLIP_DURATION cfg) /\
       (end_time s == start_time s + duration s)%Q.

(** The loop invariant of [calculate_all_clip_segments]. *)
Record loop_inv (cfg : Config) (d : Q) (clip_count : Z)
    (segments : list Segment) : Prop := mk_loop_inv {
  inv_count : Z.of_nat (List.length segments) = clip_count;
  inv_bound : clip_count <= Z.max 0 (MAX_CLIPS_PER_VIDEO cfg);
  inv_numbers : numbered_from_1 segments;
  inv_segments : Forall (segment_ok cfg d) segments
}.

(** What holds of the returned plan. *)
Record plan_ok (cfg : Config) (d : Q) (segments : list Segment)
  : Prop := mk_plan_ok {
  ok_bound : Z.of_nat (List.length segments)
             <= Z.max 0 (MAX_CLIPS_PER_VIDEO cfg);
  ok_numbers : numbered_from_1 segments;
  ok_segments : Forall (segment_ok cfg d) segments
}.

(** The position of a window in the batch and whether its encode succeeds. *)
Definition succeeds (cfg : Config)
    (subprocess_run : nat -> list Arg -> RunResult)
    (video_path clean_title : string) (i : nat) (segment : Segment) : bool :=
  _create_30sec_clip cfg (subprocess_run i) video_path segment
    (os_path_join (OUTPUT_DIR cfg) (output_filename_of clean_title segment)).

(** The windows of [rest] whose encode succeeds, [rest] starting at index
    [i] of the batch. *)
Fixpoint successful (cfg : Config)
    (subprocess_run : nat -> list Arg -> RunResult)
    (video_path clean_title : string) (i : nat) (rest : list Segment)
    : list Segment :=
  match rest with
  | [] => []
  | segment :: rest' =>
      let tl := successful cfg subprocess_run video_path clean_title
                  (S i) rest' in
      if succeeds cfg subprocess_run video_path clean_title i segment
      then segment :: tl else tl
  end.

(** The number substituted right after the literal [key] in an f-string. *)
Fixpoint value_after (key : string) (f : FString) : option Q :=
  match f with
  | Lit s :: ((Num x :: _) as f') =>
      if String.eqb s key then Some x else value_after key f'
  | _ :: f' => value_after key f'
  | [] => None
  end.

(** A mutation of the progress record overwrites it fully when what it
    leaves does not depend on what was there. *)
Definition fully_overwrites (m : ProgressState -> ProgressState) : Prop :=
  forall s1 s2 : ProgressState, m s1 = m s2.

(** A configuration with [OVERLAP_DURATION = CLIP_DURATION]. *)
Definition zero_step_Config : Config :=
  {| OUTPUT_DIR := "all_30sec_shorts";
     CLIP_DURATION := 30;
     OVERLAP_DURATION := 30;
     MIN_CLIP_DURATION := 25;
     AUDIO_FADE_DURATION := 2 # 10;
     VIDEO_CRF := 18;
     AUDIO_BITRATE := "192k";
     SAMPLE_RATE := 44100;
     MAX_CLIPS_PER_VIDEO := 100;
     VIDEO_CODEC := "libx264";
     AUDIO_CODEC := "aac" |}.

(** The success flag of each window of [rest], in order. *)
Fixpoint outcomes (cfg : Config)
    (subprocess_run : nat -> list Arg -> RunResult)
    (video_path clean_title : string) (i : nat) (rest : list Segment)
    : list bool :=
  match rest with
  | [] => []
  | segment :: rest' =>
      succeeds cfg subprocess_run video_path clean_title i segment
      :: outcomes cfg subprocess_run video_path clean_title (S i) rest'
  end.

(** The window a planned segment and a created clip describe. *)
Definition window_of_segment (s : Segment) : Z * Q * Q * Q :=
  (clip_number s, start_time s, end_time s, duration s).

Definition window_of_clip (c : Clip) : Z * Q * Q * Q :=
  (c_clip_number c, c_start_time c, c_end_time c, c_duration c).

(** ** Sample inputs *)

(** One created clip of 30 seconds, from a video of 100 seconds. *)
Definition sample_clip : Clip :=
  mkClip (os_path_join "all_30sec_shorts" [Lit "t_clip_001_0s.mp4"])
         1 0 30 30 [Lit "t_clip_001_0s.mp4"] 2.

Definition sample_metadata : Metadata :=
  mkMetadata "t" 100 "u" "" 0 "20250101".

(** The four clips of the plan of a 100 second video, all created. *)
Definition sample_clips : list Clip :=
  [ mkClip (os_path_join "all_30sec_shorts" [Lit "t_clip_001_0s.mp4"])
           1 0 30 30 [Lit "t_clip_001_0s.mp4"] 2;
    mkClip (os_path_join "all_30sec_shorts" [Lit "t_clip_002_25s.mp4"])
           2 25 55 30 [Lit "t_clip_002_25s.mp4"] 2;
    mkClip (os_path_join "all_30sec_shorts" [Lit "t_clip_003_50s.mp4"])
           3 50 80 30 [Lit "t_clip_003_50s.mp4"] 2;
    mkClip (os_path_join "all_30sec_shorts" [Lit "t_clip_004_75s.mp4"])
           4 75 100 25 [Lit "t_clip_004_75s.mp4"] 2 ].

(** A world in which every external call raises. *)
Definition failing_World : World :=
  {| w_download := fun _ => ([], Raise (Exception "download failed"));
     w_probe := fun _ => Raise (Exception "no such file");
     w_run := fun _ _ => Raised (Exception "ffmpeg not found");
     w_write_json := fun _ _ => Raise (Exception "cannot write");
     w_read_json := fun _ => Raise (Exception "cannot read");
     w_now := "2025-01-01 00:00:00" |}.

(** A world with a 10 second video, too short for any window. *)
Definition short_video_World : World :=
  {| w_download := fun _ => ([], Ok ("downloads/v.mp4",
                                     mkMetadata "t" 10 "u" "" 0 "20250101"));
     w_probe := fun _ => Ok 10%Q;
     w_run := fun _ _ => Completed 0 true 2097152;
     w_write_json := fun _ _ => Ok tt;
     w_read_json := fun _ => Raise (Exception "No such file or directory");
     w_now := "2025-01-01 00:00:00" |}.

(** A world with a 100 second video in which the encode of the window at
    index 1 leaves no output file and the other encodes succeed. *)
Definition one_missing_World : World :=
  {| w_download := fun _ => ([HookDownloading (Some 50%Q); HookFinished],
                             Ok ("downloads/v.mp4", sample_metadata));
     w_probe := fun _ => Ok 100%Q;
     w_run := fun i _ => if Nat.eqb i 1 then Completed 0 false 0
                         else Completed 0 true 2097152;
     w_write_json := fun _ _ => Ok tt;
     w_read_json := fun _ => Raise (Exception "cannot read");
     w_now := "2025-01-01 00:00:00" |}.

(** ** Further notions used below *)

(** The instant [t] lies inside one of the windows. *)
Definition covered (t : Q) (segments : list Segment) : Prop :=
  Exists (fun s => (start_time s <= t)%Q /\ (t < end_time s)%Q) segments.

(** ** The mutations of the progress record

    No function reads the progress record to decide what to do, so what a
    run does to it is a list of mutations, the same whatever the record
    held: calls of [update_progress], and the two assignments of the
    handler of [generate_shorts]. *)

Inductive Mutation : Type :=
| Overwrite (status : string) (message : FString)
            (progress total_clips current_clip : Z)
| Patch (e : exn).

Definition apply_mutation (s : ProgressState) (m : Mutation)
    : ProgressState :=
  match m with
  | Overwrite status message progress total_clips current_clip =>
      update_progress status message progress total_clips current_clip s
  | Patch e => error_handler e s
  end.

(** The record after the mutations [ms], in order. *)
Definition replay (ms : list Mutation) (s : ProgressState) : ProgressState :=
  fold_left apply_mutation ms s.

Definition is_overwrite (m : Mutation) : Prop :=
  match m with
  | Overwrite _ _ _ _ _ => True
  | Patch _ => False
  end.

(** The mutations of one call of [progress_hook]. *)
Definition progress_hook_mutations (d : HookEvent) : list Mutation :=
  match d with
  | HookDownloading (Some percentage) =>
      [ Overwrite "downloading"
          [Lit "Downloading... "; NumSpec ".1f" percentage; Lit "%"]
          (int_of_Q (10 + percentage * (2 # 10))%Q) 0 0 ]
  | HookDownloading None => []
  | HookFinished =>
      [ Overwrite "downloading" [Lit "Download complete, processing..."]
          30 0 0 ]
  | HookOther => []
  end.

(** The mutations of the batch loop called with [update_progress]: one
    per window. *)
Fixpoint clips_loop_mutations (total i : nat) (rest : list Segment)
    : list Mutation :=
  match rest with
  | [] => []
  | _ :: rest' =>
      Overwrite "processing"
        [ Lit "Generating clip "; Num (inject_Z (Z.of_nat i + 1));
          Lit "/"; Num (inject_Z (Z.of_nat total)); Lit "..." ]
        (40 + int_of_Q ((inject_Z (Z.of_nat i)
                         / inject_Z (Z.of_nat total)) * 50)%Q)
        (Z.of_nat total) (Z.of_nat i + 1)
      :: clips_loop_mutations total (S i) rest'
  end.

(** The mutations of [create_all_30sec_clips] called with
    [update_progress]. *)
Definition create_all_30sec_clips_mutations (cfg : Config)
    (probe : string -> Result Q) (video_path : string) : list Mutation :=
  match probe video_path with
  | Raise _ => []
  | Ok video_duration =>
      match calculate_all_clip_segments cfg video_duration with
      | Some segments =>
          clips_loop_mutations (List.length segments) 0 segments
      | None => []
      end
  end.

(** [generate_shorts] once more, as the response and the mutations of the
    progress record in the order the source makes them.  The clips are
    those of [create_all_30sec_clips], which do not depend on the callback. *)
Definition generate_shorts_trace (cfg : Config) (w : World) (data : Request)
    : option (Response * list Mutation) :=
  let output_dir :=
    match output_dir data with
    | Some d => d
    | None => "all_30sec_shorts"
    end in
  match url data with
  | None | Some "" => Some (JsonError "URL is required" 400, [])
  | Some url =>
      let (events, r) := w_download w url in
      let ms :=
        [ Overwrite "downloading" [Lit "Starting download..."] 0 0 0;
          Overwrite "downloading" [Lit "Downloading YouTube video..."]
            10 0 0 ]
        ++ flat_map progress_hook_mutations events in
      match r with
      | Raise e => Some (JsonError (str_exn e) 500, ms ++ [Patch e])
      | Ok (video_path, metadata) =>
          let announce :=
            match w_probe w video_path with
            | Ok video_duration =>
                if step_size cfg =? 0 then
                  Overwrite "processing" [Lit "Generating shorts..."] 40 0 0
                else
                  let expected := expected_clips cfg video_duration in
                  Overwrite "processing"
                    [Lit "Generating "; Num (inject_Z expected);
                     Lit " shorts..."] 40 expected 0
            | Raise _ =>
                Overwrite "processing" [Lit "Generating shorts..."] 40 0 0
            end in
          match create_all_30sec_clips cfg (w_probe w) (w_run w) video_path
                  (md_title metadata) None progress_state_init with
          | None => None
          | Some (created_clips, _) =>
              let ms :=
                ms
                ++ [ Overwrite "downloading" [Lit "Download complete!"]
                       30 0 0;
                     Overwrite "processing"
                       [Lit "Calculating clip segments..."] 35 0 0;
                     announce ]
                ++ create_all_30sec_clips_mutations cfg (w_probe w)
                     video_path
                ++ [ Overwrite "processing" [Lit "Creating final report..."]
                       90 0 0 ] in
              let n := Z.of_nat (List.length created_clips) in
              let complete :=
                Overwrite "complete"
                  [Lit "Successfully generated "; Num (inject_Z n);
                   Lit " shorts!"] 100 n n in
              match generate_comprehensive_report (w_write_json w) (w_now w)
                      created_clips metadata output_dir with
              | Raise e => Some (JsonError (str_exn e) 500, ms ++ [Patch e])
              | Ok (_, Some report) =>
                  Some (JsonReport report, ms ++ [complete])
              | Ok (report_path, None) =>
                  match w_read_json w report_path with
                  | Raise e =>
                      Some (JsonError (str_exn e) 500, ms ++ [Patch e])
                  | Ok report => Some (JsonReport report, ms ++ [complete])
                  end
              end
          end
      end
  end.

(** ** The request as the endpoint reads it

    [request.get_json()] raises (no JSON body, malformed JSON), or returns
    a value; [data.get] raises [AttributeError] on a value that is not a
    dictionary ([None], a list, a string, a number).  Of a dictionary the
    endpoint reads two keys, each missing, a string, or another JSON value,
    which is falsy or truthy. *)

Inductive Field : Type :=
| Missing
| Str (s : string)
| NotStr (truthy : bool).

Inductive Body : Type :=
| BodyRaises (e : exn)
| BodyNotDict (e : exn)
| BodyDict (url output_dir : Field).

(** [w] with another downloader, and with a report path that cannot be
    built. *)
Definition with_download (w : World)
    (answer : list HookEvent * Result (string * Metadata)) : World :=
  {| w_download := fun _ => answer;
     w_probe := w_probe w;
     w_run := w_run w;
     w_write_json := w_write_json w;
     w_read_json := w_read_json w;
     w_now := w_now w |}.

Definition with_write_error (w : World) (e : exn) : World :=
  {| w_download := w_download w;
     w_probe := w_probe w;
     w_run := w_run w;
     w_write_json := fun _ _ => Raise e;
     w_read_json := w_read_json w;
     w_now := w_now w |}.

(** What [os.path.join] raises on an [output_dir] that is not a string. *)
Definition join_TypeError : exn :=
  Exception "expected str, bytes or os.PathLike object".

(** The world and the dictionary a request body comes to, once its URL is
    known to be truthy.  A URL that is not a string is only handed to the
    downloader, whose answer for it is [other_download].  An [output_dir]
    that is not a string makes [os.path.join] raise where the report path
    is built, after the report and before it is written: as a write that
    raises. *)
Definition world_of (w : World)
    (other_download : list HookEvent * Result (string * Metadata))
    (url output_dir : Field) : World :=
  let w := match url with
           | Str _ => w
           | _ => with_download w other_download
           end in
  match output_dir with
  | NotStr _ => with_write_error w join_TypeError
  | _ => w
  end.

Definition data_of (url output_dir : Field) : Request :=
  {| url := match url with
            | Str u => Some u
            | Missing | NotStr false => None
            | NotStr true => Some "(not a string)"
            end;
     output_dir := match output_dir with
                   | Str d => Some d
                   | _ => None
                   end |}.

(** The endpoint from the request on: lines 396 to 401 of the source, then
    [generate_shorts] on the dictionary. *)
Definition generate_shorts_endpoint (cfg : Config) (w : World)
    (other_download : list HookEvent * Result (string * Metadata))
    (body : Body) (s : ProgressState) : option (Response * ProgressState) :=
  match body with
  | BodyRaises e | BodyNotDict e =>
      Some (JsonError (str_exn e) 500, error_handler e s)
  | BodyDict url output_dir =>
      generate_shorts cfg (world_of w other_download url output_dir)
        (data_of url output_dir) s
  end.

Definition generate_shorts_endpoint_trace (cfg : Config) (w : World)
    (other_download : list HookEvent * Result (string * Metadata))
    (body : Body) : option (Response * list Mutation) :=
  match body with
  | BodyRaises e | BodyNotDict e =>
      Some (JsonError (str_exn e) 500, [Patch e])
  | BodyDict url output_dir =>
      generate_shorts_trace cfg (world_of w other_download url output_dir)
        (data_of url output_dir)
  end.

(** Whether the URL of a request is truthy. *)
Definition url_truthy (body : Body) : bool :=
  match body with
  | BodyDict (Str u) _ => negb (String.eqb u "")
  | BodyDict (NotStr true) _ => true
  | _ => false
  end.

(** Whether the body is a dictionary. *)
Definition is_dict (body : Body) : bool :=
  match body with
  | BodyDict _ _ => true
  | _ => false
  end.

(** The milestone a run that returns its report ends on. *)
Definition complete_milestone (n : Z) : Mutation :=
  Overwrite "complete"
    [Lit "Successfully generated "; Num (inject_Z n); Lit " shorts!"]
    100 n n.

(** The mutations of a run, by its answer: none with the answer 400; calls
    of [update_progress] only, the last one the milestone ['complete'],
    with the report; calls of [update_progress] and then the handler's
    patch, which comes last, with the answer 500. *)
Definition run_shape (response : Response) (ms : list Mutation) : Prop :=
  (response = JsonError "URL is required" 400 /\ ms = [])
  \/ (exists report pre n,
        response = JsonReport report
        /\ ms = pre ++ [complete_milestone n]
        /\ Forall is_overwrite pre)
  \/ (exists e pre,
        response = JsonError (str_exn e) 500
        /\ ms = pre ++ [Patch e]
        /\ Forall is_overwrite pre).

(** * Proofs *)

(** ** Comparisons *)

Lemma Qlt_bool_iff (x y : Q) : Qlt_bool x y = true <-> (x < y)%Q.
Proof.
  unfold Qlt_bool. rewrite negb_true_iff.
  split; intro H.
  - destruct (Qlt_le_dec x y) as [Hlt|Hle]; [exact Hlt|].
    apply Qle_bool_iff in Hle. congruence.
  - destruct (Qle_bool y x) eqn:E; [|reflexivity].
    apply Qle_bool_iff in E. exfalso. apply (Qlt_not_le _ _ H E).
Qed.

Lemma Qlt_bool_false_iff (x y : Q) : Qlt_bool x y = false <-> (y <= x)%Q.
Proof.
  unfold Qlt_bool. rewrite negb_false_iff. apply Qle_bool_iff.
Qed.

(** ** Lists *)

Lemma StronglySorted_snoc {A : Type} (R : A -> A -> Prop) (l : list A) (a : A) :
  StronglySorted R l -> Forall (fun x => R x a) l ->
  StronglySorted R (l ++ [a]).
Proof.
  induction 1 as [|x l Hl IH Hx]; intro Hall; simpl.
  - repeat constructor.
  - inversion Hall as [|? ? Hxa Hla]; subst.
    constructor; [now apply IH|].
    apply Forall_app; split; [exact Hx|]. now constructor.
Qed.

Lemma numbered_snoc (segments : list Segment) (s : Segment) :
  numbered_from_1 segments ->
  clip_number s = Z.of_nat (List.length segments) + 1 ->
  numbered_from_1 (segments ++ [s]).
Proof.
  unfold numbered_from_1. intros Hn Hs.
  rewrite map_app, length_app, Hn. simpl List.length.
  rewrite Nat.add_1_r, seq_S, map_app. simpl.
  rewrite Hs. do 2 f_equal. lia.
Qed.

(** ** The planner *)

Section PlannerFacts.

Variable cfg : Config.
Variable d : Q.

Lemma loop_inv_snoc (clip_count : Z) (segments : list Segment) (s : Segment) :
  loop_inv cfg d clip_count segments ->
  clip_count < MAX_CLIPS_PER_VIDEO cfg ->
  clip_number s = clip_count + 1 ->
  segment_ok cfg d s ->
  plan_ok cfg d (segments ++ [s]).
Proof.
  intros [Hc Hb Hn Hs] Hlt Hnum Hok. constructor.
  - rewrite length_app. simpl. lia.
  - apply numbered_snoc; [exact Hn|]. lia.
  - apply Forall_app; split; [exact Hs|]. now constructor.
Qed.

Lemma loop_inv_plan_ok (clip_count : Z) (segments : list Segment) :
  loop_inv cfg d clip_count segments -> plan_ok cfg d segments.
Proof.
  intros [Hc Hb Hn Hs]. constructor; [lia | exact Hn | exact Hs].
Qed.

(** With fuel for the windows the cap still allows, the loop returns, and
    what it returns is a well-formed plan. *)
Lemma segments_loop_ok :
  forall (fuel : nat) (start clip_count : Z) (segments : list Segment),
    loop_inv cfg d clip_count segments ->
    (Z.to_nat (MAX_CLIPS_PER_VIDEO cfg - clip_count) <= fuel)%nat ->
    exists out,
      segments_loop cfg fuel d start clip_count segments = Some out
      /\ plan_ok cfg d out.
Proof.
  induction fuel as [|fuel IH]; intros start clip_count segments Hinv Hfuel.
  - simpl.
    assert (Hge : (clip_count <? MAX_CLIPS_PER_VIDEO cfg) = false)
      by (apply Z.ltb_ge; lia).
    rewrite Hge, andb_false_r.
    eexists; split; [reflexivity|]. eapply loop_inv_plan_ok; eassumption.
  - simpl.
    destruct (Qlt_bool (inject_Z start) d
              && (clip_count <? MAX_CLIPS_PER_VIDEO cfg)) eqn:Hguard.
    2:{ eexists; split; [reflexivity|]. eapply loop_inv_plan_ok; eassumption. }
    apply andb_true_iff in Hguard. destruct Hguard as [Hstart Hcap].
    apply Qlt_bool_iff in Hstart. apply Z.ltb_lt in Hcap.
    destruct (Qlt_bool d (inject_Z (start + CLIP_DURATION cfg))) eqn:Hend.
    + apply Qlt_bool_iff in Hend.
      destruct (Qle_bool (inject_Z (MIN_CLIP_DURATION cfg))
                         (d - inject_Z start)) eqn:Hmin.
      * eexists; split; [reflexivity|].
        apply loop_inv_snoc with (clip_count := clip_count);
          [exact Hinv | exact Hcap | reflexivity |].
        apply Qle_bool_iff in Hmin.
        rewrite inject_Z_plus in Hend.
        unfold segment_ok; simpl.
        repeat split; try assumption; try apply Qle_refl. lra.
      * eexists; split; [reflexivity|].
        eapply loop_inv_plan_ok; eassumption.
    + apply Qlt_bool_false_iff in Hend.
      apply IH; [|lia].
      destruct Hinv as [Hc Hb Hn Hs]. constructor.
      * rewrite length_app. simpl. lia.
      * lia.
      * apply numbered_snoc; [exact Hn|]. simpl. lia.
      * apply Forall_app; split; [exact Hs|]. constructor; [|constructor].
        unfold segment_ok; simpl. repeat split; try assumption.
        rewrite inject_Z_plus. reflexivity.
Qed.

Lemma loop_inv_init : loop_inv cfg d 0 [].
Proof.
  constructor; simpl; try constructor; try reflexivity.
  apply Z.le_max_l.
Qed.

(** The planner returns a plan for every configuration and duration. *)
Lemma calculate_all_clip_segments_ok :
  exists segments,
    calculate_all_clip_segments cfg d = Some segments
    /\ plan_ok cfg d segments.
Proof.
  unfold calculate_all_clip_segments.
  apply segments_loop_ok; [apply loop_inv_init|].
  rewrite Z.sub_0_r. apply Nat.le_refl.
Qed.

End PlannerFacts.

(** With a positive step the start times of the plan increase strictly. *)
Lemma segments_loop_increasing (cfg : Config) (d : Q) :
  0 < step_size cfg ->
  forall (fuel : nat) (start clip_count : Z) (segments out : list Segment),
    increasing_starts segments ->
    Forall (fun s => (start_time s < inject_Z start)%Q) segments ->
    segments_loop cfg fuel d start clip_count segments = Some out ->
    increasing_starts out.
Proof.
  intros Hstep.
  induction fuel as [|fuel IH]; intros start clip_count segments out Hs Hlt;
    simpl;
    destruct (Qlt_bool (inject_Z start) d
              && (clip_count <? MAX_CLIPS_PER_VIDEO cfg));
    try discriminate; try (intros [= <-]; exact Hs).
  assert (Hsnoc : forall s, start_time s = inject_Z start ->
                            increasing_starts (segments ++ [s])).
  { intros s Hst. unfold increasing_starts. rewrite map_app. simpl.
    apply StronglySorted_snoc; [exact Hs|].
    apply Forall_map. rewrite Hst. exact Hlt. }
  destruct (Qlt_bool d (inject_Z (start + CLIP_DURATION cfg))).
  - destruct (Qle_bool _ _); intros [= <-]; [|exact Hs].
    now apply Hsnoc.
  - apply IH; [now apply Hsnoc|].
    assert (Hnext : (inject_Z start < inject_Z (start + step_size cfg))%Q)
      by (rewrite <- Zlt_Qlt; lia).
    apply Forall_app; split.
    + eapply Forall_impl; [|exact Hlt]. simpl. intros s Hs'.
      eapply Qlt_trans; eassumption.
    + constructor; [exact Hnext|constructor].
Qed.

Lemma calculate_all_clip_segments_increasing (cfg : Config) (d : Q)
    (segments : list Segment) :
  0 < step_size cfg ->
  calculate_all_clip_segments cfg d = Some segments ->
  increasing_starts segments.
Proof.
  intros Hstep. unfold calculate_all_clip_segments.
  apply segments_loop_increasing; [exact Hstep | constructor | constructor].
Qed.

Lemma segment_ok_end (cfg : Config) (d : Q) (segments : list Segment) :
  Forall (segment_ok cfg d) segments ->
  Forall (fun s => (end_time s <= d)%Q) segments.
Proof.
  apply Forall_impl. now intros s [H _].
Qed.

(** ** The plan of the configured parameters *)

Example plan_100 :
  calculate_all_clip_segments default_Config 100
  = Some [mkSegment 0 30 30 1 false; mkSegment 25 55 30 2 false;
          mkSegment 50 80 30 3 false; mkSegment 75 100 (100 - 75) 4 true].
Proof. reflexivity. Qed.

Example plan_40 :
  calculate_all_clip_segments default_Config 40
  = Some [mkSegment 0 30 30 1 false].
Proof. reflexivity. Qed.

Example plan_24 : calculate_all_clip_segments default_Config 24 = Some [].
Proof. reflexivity. Qed.

(** C1.  For every total duration [d >= 0], the planner with the configured
    parameters (30, 5, 25, 100) returns a plan whose start times increase
    strictly, whose end times do not exceed [d], and whose clip numbers are
    1, 2, ..., N, the final window included. *)
Theorem C1_plan_ordered_bounded_numbered (d : Q) :
  (0 <= d)%Q ->
  exists segments,
    calculate_all_clip_segments default_Config d = Some segments
    /\ increasing_starts segments
    /\ Forall (fun s => (end_time s <= d)%Q) segments
    /\ numbered_from_1 segments.
Proof.
  intros _.
  destruct (calculate_all_clip_segments_ok default_Config d)
    as (segments & Heq & [_ Hn Hs]).
  exists segments. repeat split; try assumption.
  - apply (calculate_all_clip_segments_increasing default_Config d);
      [reflexivity | exact Heq].
  - eapply segment_ok_end; eassumption.
Qed.

Lemma C1_witness :
  (0 <= 100)%Q /\
  exists segments,
    calculate_all_clip_segments default_Config 100 = Some segments
    /\ increasing_starts segments
    /\ Forall (fun s => (end_time s <= 100)%Q) segments
    /\ numbered_from_1 segments.
Proof.
  split; [discriminate|].
  apply (C1_plan_ordered_bounded_numbered 100). discriminate.
Defined.

(** C2.  In every plan of the configured parameters a window that is not
    final has duration exactly 30, and a final window has a duration [x]
    with [25 <= x < 30]. *)
Theorem C2_window_durations (d : Q) :
  exists segments,
    calculate_all_clip_segments default_Config d = Some segments
    /\ Forall (fun s =>
                 if is_final_clip s
                 then (25 <= duration s)%Q /\ (duration s < 30)%Q
                 else duration s = 30%Q) segments.
Proof.
  destruct (calculate_all_clip_segments_ok default_Config d)
    as (segments & Heq & [_ _ Hs]).
  exists segments. split; [exact Heq|].
  eapply Forall_impl; [|exact Hs].
  intros s [_ H]. destruct (is_final_clip s).
  - destruct H as (_ & _ & Hmin & Hmax). split; assumption.
  - destruct H as [H _]. exact H.
Qed.

(** C3.  For every total duration [d >= 0] the plan of the configured
    parameters has at most 100 windows, the final window counted. *)
Theorem C3_at_most_max_windows (d : Q) :
  (0 <= d)%Q ->
  exists segments,
    calculate_all_clip_segments default_Config d = Some segments
    /\ (List.length segments <= 100)%nat.
Proof.
  intros _.
  destruct (calculate_all_clip_segments_ok default_Config d)
    as (segments & Heq & [Hb _ _]).
  exists segments. split; [exact Heq|].
  simpl in Hb. lia.
Qed.

Lemma C3_witness :
  (0 <= 10000)%Q /\
  exists segments,
    calculate_all_clip_segments default_Config 10000 = Some segments
    /\ (List.length segments <= 100)%nat.
Proof.
  split; [discriminate|].
  apply (C3_at_most_max_windows 10000). discriminate.
Defined.

(** At 2502 seconds the hundredth window is the final, truncated one. *)
Example plan_2502_final_is_hundredth :
  option_map (fun l => (List.length l, skipn 99 l))
    (calculate_all_clip_segments default_Config 2502)
  = Some (100%nat, [mkSegment 2475 2502 (2502 - 2475) 100 true]).
Proof. vm_compute. reflexivity. Qed.

Example plan_10000_full :
  option_map (@List.length Segment)
    (calculate_all_clip_segments default_Config 10000) = Some 100%nat.
Proof. reflexivity. Qed.

(** ** A step that is not positive *)

(** C4 as stated fails at [OVERLAP_DURATION = CLIP_DURATION = 30]: the step is
    0, and for a 60 second video the planner returns a plan, the window
    [0, 30) a hundred times over, numbered 1 to 100. *)
Lemma C4_counterexample :
  step_size zero_step_Config <= 0
  /\ calculate_all_clip_segments zero_step_Config 60
     = Some (map (fun k => mkSegment 0 30 30 (Z.of_nat k) false)
                 (seq 1 100)).
Proof.
  split; [discriminate|]. vm_compute. reflexivity.
Qed.

(** C4, amended.  When the step [CLIP_DURATION - OVERLAP_DURATION] is not
    positive the planner does not fail: it returns a plan, of at most
    [MAX_CLIPS_PER_VIDEO] windows numbered 1, 2, ..., N, none ending after
    the total duration. *)
Theorem C4_nonpositive_step_returns_plan (cfg : Config) (d : Q) :
  step_size cfg <= 0 ->
  exists segments,
    calculate_all_clip_segments cfg d = Some segments
    /\ Z.of_nat (List.length segments) <= Z.max 0 (MAX_CLIPS_PER_VIDEO cfg)
    /\ numbered_from_1 segments
    /\ Forall (fun s => (end_time s <= d)%Q) segments.
Proof.
  intros _.
  destruct (calculate_all_clip_segments_ok cfg d)
    as (segments & Heq & [Hb Hn Hs]).
  exists segments. repeat split; try assumption.
  eapply segment_ok_end; eassumption.
Qed.

Lemma C4_witness :
  step_size zero_step_Config <= 0 /\
  exists segments,
    calculate_all_clip_segments zero_step_Config 60 = Some segments
    /\ Z.of_nat (List.length segments)
       <= Z.max 0 (MAX_CLIPS_PER_VIDEO zero_step_Config)
    /\ numbered_from_1 segments
    /\ Forall (fun s => (end_time s <= 60)%Q) segments.
Proof.
  split; [discriminate|].
  apply (C4_nonpositive_step_returns_plan zero_step_Config 60). discriminate.
Defined.

(** ** The estimate and the plan *)

(** C9.  There is a total duration at which the estimate
    [min(int(d / step) + 1, 100)] announced before encoding differs from the
    number of windows the planner returns: at 40 seconds the estimate is 2,
    and the plan is the single window [0, 30), the 15 seconds left from 25
    being too short for a final window. *)
Theorem C9_estimate_differs_from_plan :
  exists d segments,
    calculate_all_clip_segments default_Config d = Some segments
    /\ expected_clips default_Config d <> Z.of_nat (List.length segments)
    /\ expected_clips default_Config d = 2
    /\ segments = [mkSegment 0 30 30 1 false]
    /\ (d - 25 < inject_Z (MIN_CLIP_DURATION default_Config))%Q.
Proof.
  exists 40%Q, [mkSegment 0 30 30 1 false].
  repeat split; try reflexivity. discriminate.
Qed.

(** ** The final flag *)

(** C10.  In every plan of the configured parameters a window is marked
    final only if its end time is the total duration and its duration,
    [end_time - start_time], is below 30; a window whose end time equals the
    total duration while its duration is 30 is not marked final.  For a 55
    second video the second window is such a window. *)
Theorem C10_final_only_when_truncated (d : Q) :
  (exists segments,
     calculate_all_clip_segments default_Config d = Some segments
     /\ Forall (fun s =>
                  (is_final_clip s = true ->
                     end_time s = d
                     /\ duration s = (end_time s - start_time s)%Q
                     /\ (duration s < 30)%Q)
                  /\ ((end_time s == d)%Q -> (duration s == 30)%Q ->
                      is_final_clip s = false)) segments)
  /\ calculate_all_clip_segments default_Config 55
     = Some [mkSegment 0 30 30 1 false; mkSegment 25 55 30 2 false].
Proof.
  split; [|reflexivity].
  destruct (calculate_all_clip_segments_ok default_Config d)
    as (segments & Heq & [_ _ Hs]).
  exists segments. split; [exact Heq|].
  eapply Forall_impl; [|exact Hs].
  intros s [_ H]. destruct (is_final_clip s).
  - destruct H as (He & Hd & _ & Hmax). split.
    + intros _. repeat split; assumption.
    + intros _ H30. exfalso. rewrite H30 in Hmax.
      exact (Qlt_irrefl _ Hmax).
  - split; [discriminate|reflexivity].
Qed.

(** At 100 seconds the window from 75 is final: it ends at 100 and lasts 25. *)
Lemma C10_witness :
  is_final_clip (mkSegment 75 100 (100 - 75) 4 true) = true
  /\ end_time (mkSegment 75 100 (100 - 75) 4 true) = 100%Q
  /\ (duration (mkSegment 75 100 (100 - 75) 4 true) < 30)%Q.
Proof.
  split; [reflexivity|].
  destruct (C10_final_only_when_truncated 100)
    as [(segments & Heq & Hall) _].
  rewrite plan_100 in Heq. injection Heq as <-.
  apply Forall_inv_tail, Forall_inv_tail, Forall_inv_tail, Forall_inv in Hall.
  destruct Hall as [Hfinal _].
  destruct (Hfinal eq_refl) as (He & _ & Hd). split; assumption.
Defined.

(** ** Rounding to two decimals *)

Lemma Qdiv_100 (g : Q) : (g / 100 == g * (1 # 100))%Q.
Proof. reflexivity. Qed.

Lemma round2_close (x : Q) : (Qabs (round2 x - x) <= 1 # 200)%Q.
Proof.
  unfold round2.
  pose proof (Qfloor_le (x * 100)) as Hlo.
  pose proof (Qlt_floor (x * 100)) as Hhi.
  rewrite inject_Z_plus in Hhi. change (inject_Z 1) with 1%Q in Hhi.
  set (f := Qfloor (x * 100)) in *. clearbody f.
  apply Qabs_Qle_condition. rewrite Qdiv_100.
  destruct (Qlt_bool (x * 100 - inject_Z f) (1 # 2)) eqn:E1.
  - apply Qlt_bool_iff in E1. split; lra.
  - apply Qlt_bool_false_iff in E1.
    destruct (Qlt_bool (1 # 2) (x * 100 - inject_Z f)) eqn:E2.
    + apply Qlt_bool_iff in E2. rewrite inject_Z_plus.
      change (inject_Z 1) with 1%Q. split; lra.
    + apply Qlt_bool_false_iff in E2.
      destruct (Z.even f);
        [|rewrite inject_Z_plus; change (inject_Z 1) with 1%Q]; split; lra.
Qed.

Lemma round2_0 : (round2 0 == 0)%Q.
Proof. reflexivity. Qed.

Example round2_half_even :
  (round2 (1 # 8) == 12 # 100)%Q /\ (round2 (3 # 8) == 38 # 100)%Q.
Proof. split; reflexivity. Qed.

(** ** Rounding to the nearest double *)

Lemma round_half_even_close (y : Q) :
  (Qabs (inject_Z (round_half_even y) - y) <= 1 # 2)%Q.
Proof.
  unfold round_half_even.
  pose proof (Qfloor_le y) as Hlo.
  pose proof (Qlt_floor y) as Hhi.
  rewrite inject_Z_plus in Hhi. change (inject_Z 1) with 1%Q in Hhi.
  set (f := Qfloor y) in *. clearbody f.
  apply Qabs_Qle_condition.
  destruct (Qlt_bool (y - inject_Z f) (1 # 2)) eqn:E1.
  - apply Qlt_bool_iff in E1. split; lra.
  - apply Qlt_bool_false_iff in E1.
    destruct (Qlt_bool (1 # 2) (y - inject_Z f)) eqn:E2.
    + apply Qlt_bool_iff in E2. rewrite inject_Z_plus.
      change (inject_Z 1) with 1%Q. split; lra.
    + apply Qlt_bool_false_iff in E2.
      destruct (Z.even f);
        [|rewrite inject_Z_plus; change (inject_Z 1) with 1%Q]; split; lra.
Qed.

Lemma pow2_pos (k : Z) : (0 < pow2 k)%Q.
Proof. apply Qpower_0_lt. reflexivity. Qed.

Lemma pow2_plus (a b : Z) : (pow2 (a + b) == pow2 a * pow2 b)%Q.
Proof. apply Qpower_plus. discriminate. Qed.

Lemma pow2_nonneg_Z (k : Z) : 0 <= k -> (pow2 k == inject_Z (2 ^ k))%Q.
Proof.
  intros Hk. unfold pow2. rewrite Zpower_Qpower by exact Hk. reflexivity.
Qed.

(** [ilog2] does not overshoot. *)
Lemma pow2_ilog2_le (x : Q) : (0 < x)%Q -> (pow2 (ilog2 x) <= x)%Q.
Proof.
  intros Hx. unfold ilog2.
  destruct (Qle_bool _ x) eqn:E; [now apply Qle_bool_iff in E|].
  clear E. destruct x as [n d].
  assert (Hn : 0 < n) by (unfold Qlt in Hx; simpl in Hx; lia).
  cbn [Qnum Qden].
  pose proof (Z.log2_spec n Hn) as [Hn1 _].
  pose proof (Z.log2_spec (Z.pos d) (Pos2Z.is_pos d)) as [_ Hd2].
  pose proof (Z.log2_nonneg n) as Hln.
  pose proof (Z.log2_nonneg (Z.pos d)) as Hld.
  set (ln := Z.log2 n) in *. set (ld := Z.log2 (Z.pos d)) in *.
  replace (ln - ld - 1) with (ln + - (Z.succ ld)) by lia.
  rewrite pow2_plus. unfold pow2 at 2. rewrite Qpower_opp.
  fold (pow2 (Z.succ ld)).
  rewrite (pow2_nonneg_Z ln) by exact Hln.
  rewrite (pow2_nonneg_Z (Z.succ ld)) by lia.
  assert (Hp : 0 < 2 ^ Z.succ ld) by (apply Z.pow_pos_nonneg; lia).
  destruct (2 ^ Z.succ ld) as [|p|p] eqn:Ep; try lia.
  unfold Qle, Qmult, Qinv, inject_Z. simpl.
  nia.
Qed.

Lemma ulp_bound (x : Q) :
  ~ (x == 0)%Q ->
  (ulp x <= (1 # 4503599627370496) * Qabs x + pow2 (-1074))%Q.
Proof.
  intros Hx. unfold ulp.
  assert (Hpos : (0 < Qabs x)%Q).
  { destruct (Qlt_le_dec 0 (Qabs x)) as [H|H]; [exact H|].
    exfalso. apply Hx. apply Qabs_Qle_condition in H. lra. }
  pose proof (pow2_ilog2_le (Qabs x) Hpos) as Hl.
  pose proof (pow2_pos (-1074)) as Hs.
  set (e := ilog2 (Qabs x)) in *. clearbody e.
  destruct (Z.max_spec e (-1022)) as [[_ ->] | [_ ->]].
  - change (-1022 - 52) with (-1074). lra.
  - replace (e - 52) with (e + -52) by lia. rewrite pow2_plus.
    change (pow2 (-52)) with (1 # 4503599627370496)%Q. lra.
Qed.

(** Rounding to a double moves a number by at most [2^-53] of itself (and
    by at most [2^-1075] where doubles are [2^-1074] apart). *)
Lemma to_double_close (x : Q) :
  (Qabs (to_double x - x)
   <= (1 # 9007199254740992) * Qabs x + pow2 (-1075))%Q.
Proof.
  unfold to_double. destruct (Qeq_bool x 0) eqn:E.
  - apply Qeq_bool_iff in E. rewrite E.
    pose proof (pow2_pos (-1075)).
    change (Qabs (0 - 0)) with 0%Q. change (Qabs 0) with 0%Q. lra.
  - assert (Hx : ~ (x == 0)%Q) by (now apply Qeq_bool_neq).
    rewrite Qred_correct.
    pose proof (ulp_bound x Hx) as Hu.
    pose proof (pow2_pos (Z.max (ilog2 (Qabs x)) (-1022) - 52)) as Hup.
    fold (ulp x) in Hup.
    set (u := ulp x) in *. clearbody u.
    pose proof (round_half_even_close (x / u)) as Hr.
    set (n := inject_Z (round_half_even (x / u))) in *. clearbody n.
    assert (Hxu : (x == x / u * u)%Q) by (field; lra).
    assert (Heq : (n * u - x == (n - x / u) * u)%Q).
    { rewrite Hxu at 1. ring. }
    rewrite Heq, Qabs_Qmult, (Qabs_pos u) by lra.
    assert (Hh : (pow2 (-1075) == (1 # 2) * pow2 (-1074))%Q) by reflexivity.
    rewrite Hh.
    assert (Qabs (n - x / u) * u <= (1 # 2) * u)%Q.
    { apply Qmult_le_compat_r; lra. }
    set (a := Qabs x) in *. clearbody a.
    set (s := pow2 (-1074)) in *. clearbody s.
    change (1 # 9007199254740992)%Q
      with ((1 # 2) * (1 # 4503599627370496))%Q.
    lra.
Qed.

Lemma Qabs_sum_le (x y c : Q) :
  (Qabs (y - x) <= c)%Q -> (Qabs y <= Qabs x + c)%Q.
Proof.
  intros H. apply Qabs_Qle_condition in H.
  pose proof (Qle_Qabs x) as H1.
  pose proof (Qle_Qabs (- x)) as H2. rewrite Qabs_opp in H2.
  apply Qabs_Qle_condition. split; lra.
Qed.

(** The doubles of some float operations, as an interpreter prints them. *)
Example doubles :
  to_double (to_double (1 # 10) + to_double (2 # 10))
  = (1351079888211149 # 4503599627370496)%Q      (* 0.30000000000000004 *)
  /\ to_double (30 / 40000)
     = (3458764513820541 # 4611686018427387904)%Q          (* 0.00075 *)
  /\ to_double (to_double (30 / 40000) * 100)
     = (5404319552844595 # 72057594037927936)%Q (* 0.07499999999999999 *)
  /\ py_round2 (to_double (to_double (30 / 40000) * 100))
     = to_double (7 # 100)                                     (* 0.07 *)
  /\ py_round2 (to_double (to_double (115 / 800) * 100))
     = to_double (1437 # 100)                                 (* 14.37 *)
  /\ to_double (to_double (115 / 100) * 100)
     = (8092405580431359 # 70368744177664)%Q    (* 114.99999999999999 *)
  /\ to_double 30 = 30%Q.
Proof. vm_compute. repeat split. Qed.

(** ** The coverage figure of the report *)

Lemma coverage_percentage_ok (total_duration video_duration : Q) :
  exists c,
    coverage_percentage total_duration video_duration = Ok c
    /\ ((0 < video_duration)%Q ->
        c = to_double (to_double (total_duration / video_duration) * 100))
    /\ ((video_duration <= 0)%Q -> c = 0%Q).
Proof.
  unfold coverage_percentage, py_div.
  destruct (Qlt_bool 0 video_duration) eqn:Hpos.
  - apply Qlt_bool_iff in Hpos.
    destruct (Qeq_bool video_duration 0) eqn:H0.
    + apply Qeq_bool_iff in H0. rewrite H0 in Hpos.
      exfalso. exact (Qlt_irrefl _ Hpos).
    + eexists. split; [reflexivity|]. split; [reflexivity|].
      intros Hle. exfalso. apply (Qlt_not_le _ _ Hpos Hle).
  - apply Qlt_bool_false_iff in Hpos.
    exists 0%Q. split; [reflexivity|]. split; [|reflexivity].
    intros Hlt. exfalso. apply (Qlt_not_le _ _ Hlt Hpos).
Qed.

(** The report of a non-empty list is built: no division fails. *)
Lemma build_report_nonempty (created_clips : list Clip) (metadata : Metadata)
    (now : string) :
  created_clips <> [] ->
  exists r c,
    build_report created_clips metadata now = Ok r
    /\ coverage_percentage (sum_of (map c_duration created_clips))
         (md_duration metadata) = Ok c
    /\ video_coverage_percentage r = py_round2 c
    /\ total_duration_generated r = sum_of (map c_duration created_clips)
    /\ total_clips_created r = Z.of_nat (List.length created_clips)
    /\ clip_details r = created_clips
    /\ shortest_clip r = min_of (map c_duration created_clips)
    /\ longest_clip r = max_of (map c_duration created_clips).
Proof.
  intros Hne. unfold build_report.
  destruct (coverage_percentage_ok (sum_of (map c_duration created_clips))
              (md_duration metadata)) as (c & -> & _).
  assert (Hn : Qeq_bool (inject_Z (Z.of_nat (List.length created_clips))) 0
               = false).
  { destruct created_clips as [|x l]; [contradiction|].
    destruct (Qeq_bool _ 0) eqn:E; [|reflexivity].
    apply Qeq_bool_iff in E. change 0%Q with (inject_Z 0) in E.
    apply inject_Z_injective in E. simpl in E. discriminate E. }
  unfold py_div. rewrite Hn.
  eexists. exists c. repeat split; reflexivity.
Qed.

(** The rounded figure against the exact percentage. *)
Lemma coverage_figure_close (x : Q) :
  (Qabs (py_round2 (to_double (to_double x * 100)) - 100 * x)
   <= (1 # 200) + (1 # 2251799813685248) * Qabs (100 * x)
      + (1 # 576460752303423488))%Q.
Proof.
  unfold py_round2.
  assert (Heta : (pow2 (-1075) <= 1 # 1180591620717411303424)%Q)
    by (apply Qle_bool_iff; vm_compute; reflexivity).
  pose proof (pow2_pos (-1075)) as Heta0.
  set (eta := pow2 (-1075)) in *.
  pose proof (to_double_close x) as H1. change (pow2 (-1075)) with eta in H1.
  set (q := to_double x) in *. clearbody q.
  pose proof (Qabs_sum_le _ _ _ H1) as A1.
  pose proof (to_double_close (q * 100)) as H2. change (pow2 (-1075)) with eta in H2.
  assert (Hq100 : (Qabs (q * 100) == Qabs q * 100)%Q)
    by (rewrite Qabs_Qmult; reflexivity).
  rewrite Hq100 in H2.
  set (p := to_double (q * 100)) in *. clearbody p.
  pose proof (Qabs_sum_le _ _ _ H2) as A2. rewrite Hq100 in A2.
  pose proof (round2_close p) as H3.
  set (r := round2 p) in *. clearbody r.
  pose proof (Qabs_sum_le _ _ _ H3) as A3.
  pose proof (to_double_close r) as H4. change (pow2 (-1075)) with eta in H4.
  set (f := to_double r) in *. clearbody f.
  assert (Hx100 : (Qabs (100 * x) == 100 * Qabs x)%Q)
    by (rewrite Qabs_Qmult; reflexivity).
  rewrite Hx100.
  pose proof (Qabs_nonneg x) as Hx0.
  set (ax := Qabs x) in *. clearbody ax.
  set (aq := Qabs q) in *. clearbody aq.
  set (ap := Qabs p) in *. clearbody ap.
  set (ar := Qabs r) in *. clearbody ar. clearbody eta.
  apply Qabs_Qle_condition in H1, H2, H3, H4.
  apply Qabs_Qle_condition. split; lra.
Qed.

Example report_of_sample :
  generate_comprehensive_report (fun _ _ => Ok tt) "now"
    sample_clips sample_metadata "out"
  = match build_report sample_clips sample_metadata "now" with
    | Ok r => Ok (os_path_join "out" [Lit "report.json"], Some r)
    | Raise e => Raise e
    end.
Proof. reflexivity. Qed.

(** C5 as stated fails for the four clips (30, 30, 30 and 25 seconds) of a
    video of 100 seconds: the report holds 115, the percentage, and not the
    ratio 115/100, whether that is taken exactly or as a float. *)
Lemma C5_counterexample :
  exists p r,
    generate_comprehensive_report (fun _ _ => Ok tt) "now"
      sample_clips sample_metadata "out" = Ok (p, Some r)
    /\ total_duration_generated r = 115%Q
    /\ video_coverage_percentage r = 115%Q
    /\ ~ (video_coverage_percentage r
          == total_duration_generated r / md_duration sample_metadata)%Q
    /\ ~ (video_coverage_percentage r
          == to_double (total_duration_generated r
                        / md_duration sample_metadata))%Q.
Proof.
  eexists; eexists. split; [vm_compute; reflexivity|].
  repeat split; try (vm_compute; discriminate).
Qed.

(** C5, amended.  For every non-empty list of created clips the report is
    built without any division by zero (and returned once it is written),
    and its coverage figure is a percentage: with [total] the sum of the
    clips' durations and a positive source duration, it is
    [round(total / duration * 100, 2)] in float arithmetic, which lies
    within 0.005 (and a relative float error below [2^-51]) of the exact
    [100 * total / duration].  When the source duration is 0 (or negative)
    nothing is divided and the figure is 0. *)
Theorem C5_coverage_is_rounded_percentage
    (created_clips : list Clip) (metadata : Metadata) (now : string) :
  created_clips <> [] ->
  let total := sum_of (map c_duration created_clips) in
  let video_duration := md_duration metadata in
  exists r,
    build_report created_clips metadata now = Ok r
    /\ (forall write_json output_dir,
          generate_comprehensive_report write_json now created_clips
            metadata output_dir
          = match write_json (os_path_join output_dir [Lit "report.json"])
                    r with
            | Raise e => Raise e
            | Ok _ =>
                Ok (os_path_join output_dir [Lit "report.json"], Some r)
            end)
    /\ total_duration_generated r = total
    /\ ((0 < video_duration)%Q ->
        video_coverage_percentage r
        = py_round2 (to_double (to_double (total / video_duration) * 100))
        /\ (Qabs (video_coverage_percentage r
                  - 100 * (total / video_duration))
            <= (1 # 200)
               + (1 # 2251799813685248)
                 * Qabs (100 * (total / video_duration))
               + (1 # 576460752303423488))%Q)
    /\ ((video_duration <= 0)%Q -> video_coverage_percentage r = 0%Q)
    /\ ((video_duration == 0)%Q -> video_coverage_percentage r = 0%Q).
Proof.
  intros Hne total video_duration.
  destruct (build_report_nonempty created_clips metadata now Hne)
    as (r & c & Hr & Hc & Hfig & Htot & _).
  destruct (coverage_percentage_ok total video_duration)
    as (c' & Hc' & Hpos & Hzero).
  unfold total, video_duration in Hc'. rewrite Hc in Hc'.
  injection Hc' as <-.
  exists r. split; [exact Hr|]. split; [|split; [exact Htot|split; [|split]]].
  - intros write_json output_dir.
    destruct created_clips as [|x l]; [contradiction|].
    cbn [generate_comprehensive_report]. rewrite Hr. reflexivity.
  - intros Hd. rewrite Hfig, (Hpos Hd).
    split; [reflexivity | apply coverage_figure_close].
  - intros Hle. rewrite Hfig, (Hzero Hle). reflexivity.
  - intros H0. rewrite Hfig, Hzero; [reflexivity|].
    rewrite H0. apply Qle_refl.
Qed.

Lemma C5_witness :
  sample_clips <> [] /\
  exists r,
    build_report sample_clips (mkMetadata "t" 800 "u" "" 0 "20250101") "now"
    = Ok r
    /\ total_duration_generated r = 115%Q
    /\ video_coverage_percentage r = to_double (1437 # 100).
Proof.
  split; [discriminate|].
  destruct (C5_coverage_is_rounded_percentage sample_clips
              (mkMetadata "t" 800 "u" "" 0 "20250101") "now")
    as (r & Hr & _ & Htot & Hpos & _); [discriminate|].
  exists r. split; [exact Hr|]. split; [exact Htot|].
  destruct Hpos as [-> _]; [reflexivity|]. vm_compute. reflexivity.
Defined.

(** A source duration of 0 is not divided by: the figure is 0, where the
    division alone would raise. *)
Example coverage_of_zero_duration :
  option_map video_coverage_percentage
    (match build_report sample_clips (mkMetadata "t" 0 "u" "" 0 "") "now"
     with Ok r => Some r | Raise _ => None end) = Some 0%Q
  /\ py_div 115 0 = Raise (Exception "division by zero").
Proof. vm_compute. split; reflexivity. Qed.

(** One clip of 30 seconds from a video of 40000: the float quotient times
    100 falls just below 0.075 and the figure is 0.07. *)
Example coverage_30_of_40000 :
  option_map video_coverage_percentage
    (match build_report [sample_clip] (mkMetadata "t" 40000 "u" "" 0 "")
             "now"
     with Ok r => Some r | Raise _ => None end)
  = Some (to_double (7 # 100)).
Proof. vm_compute. reflexivity. Qed.

(** ** The command of a window *)

Lemma Q_eq_dec (x y : Q) : {x = y} + {x <> y}.
Proof. decide equality; [apply Pos.eq_dec | apply Z.eq_dec]. Qed.

Lemma FPiece_eq_dec (x y : FPiece) : {x = y} + {x <> y}.
Proof. decide equality; first [apply string_dec | apply Q_eq_dec]. Qed.

Lemma Arg_eq_dec (x y : Arg) : {x = y} + {x <> y}.
Proof.
  decide equality.
  - apply (list_eq_dec FPiece_eq_dec).
  - decide equality.
    + apply (list_eq_dec FPiece_eq_dec).
    + decide equality. apply string_dec.
Qed.

(** The batch asks the transcode step for the commands of its windows and
    for nothing else: two worlds that answer these alike give the same
    batch. *)
Lemma clips_loop_asks_ffmpeg_cmd (cfg : Config)
    (run1 run2 : nat -> list Arg -> RunResult)
    (video_path clean_title : string)
    (progress_callback : option callback_type) (total : nat) :
  forall (rest : list Segment) (i : nat) (created : list Clip)
         (s : ProgressState),
    (forall k segment,
        nth_error rest k = Some segment ->
        run1 (i + k)%nat
          (ffmpeg_cmd cfg video_path segment
             (os_path_join (OUTPUT_DIR cfg)
                (output_filename_of clean_title segment)))
        = run2 (i + k)%nat
            (ffmpeg_cmd cfg video_path segment
               (os_path_join (OUTPUT_DIR cfg)
                  (output_filename_of clean_title segment)))) ->
    clips_loop cfg run1 video_path clean_title progress_callback total i
      rest created s
    = clips_loop cfg run2 video_path clean_title progress_callback total i
        rest created s.
Proof.
  induction rest as [|segment rest IH]; intros i created s Hsame;
    [reflexivity|].
  cbn [clips_loop]. cbv zeta.
  pose proof (Hsame 0%nat segment eq_refl) as H0.
  rewrite Nat.add_0_r in H0.
  unfold _create_30sec_clip. rewrite H0.
  apply IH. intros k seg Hk.
  replace (S i + k)%nat with (i + S k)%nat by lia.
  apply Hsame. exact Hk.
Qed.

(** C7.  For every window the encoder hands the external transcode step
    one command, the one built for that window and no other, and the batch
    hands it the commands of its windows; that command carries, after
    ['-af'], the filter chain of the window, in which the fade-out starts
    at the window's own duration minus the fade duration (0.2 as
    configured); so of two windows the shorter one has the earlier fade-out
    start, earlier by the difference of the durations. *)
Theorem C7_fade_out_anchored_at_window_duration :
  (forall cfg video_path segment output_path,
     let cmd := ffmpeg_cmd cfg video_path segment output_path in
     (forall subprocess_run,
        _create_30sec_clip cfg subprocess_run video_path segment output_path
        = _create_30sec_clip cfg (fun _ => subprocess_run cmd) video_path
            segment output_path)
     /\ (forall cmd',
           (forall subprocess_run,
              _create_30sec_clip cfg subprocess_run video_path segment
                output_path
              = _create_30sec_clip cfg (fun _ => subprocess_run cmd')
                  video_path segment output_path) ->
           cmd' = cmd)
     /\ nth_error cmd 30 = Some (Text [Lit "-af"])
     /\ nth_error cmd 31
        = Some (Text (audio_filters cfg (duration segment)))
     /\ value_after "afade=t=out:st=" (audio_filters cfg (duration segment))
        = Some (duration segment - AUDIO_FADE_DURATION cfg)%Q)
  /\ (forall cfg run1 run2 video_path clean_title progress_callback
             segments s,
        (forall i segment,
            nth_error segments i = Some segment ->
            run1 i (ffmpeg_cmd cfg video_path segment
                      (os_path_join (OUTPUT_DIR cfg)
                         (output_filename_of clean_title segment)))
            = run2 i (ffmpeg_cmd cfg video_path segment
                        (os_path_join (OUTPUT_DIR cfg)
                           (output_filename_of clean_title segment)))) ->
        clips_loop cfg run1 video_path clean_title progress_callback
          (List.length segments) 0 segments [] s
        = clips_loop cfg run2 video_path clean_title progress_callback
            (List.length segments) 0 segments [] s)
  /\ (forall segment,
        value_after "afade=t=out:st="
          (audio_filters default_Config (duration segment))
        = Some (duration segment - (2 # 10))%Q)
  /\ (forall cfg s1 s2 a1 a2,
        value_after "afade=t=out:st=" (audio_filters cfg (duration s1))
        = Some a1 ->
        value_after "afade=t=out:st=" (audio_filters cfg (duration s2))
        = Some a2 ->
        (a2 - a1 == duration s2 - duration s1)%Q
        /\ ((duration s1 < duration s2)%Q -> (a1 < a2)%Q)).
Proof.
  split; [|split; [|split]].
  - intros cfg video_path segment output_path cmd.
    split; [reflexivity|]. split; [|repeat split; reflexivity].
    intros cmd' Hdep.
    destruct (list_eq_dec Arg_eq_dec cmd' cmd) as [Heq | Hne];
      [exact Heq|]. exfalso.
    specialize (Hdep (fun c => if list_eq_dec Arg_eq_dec c cmd
                               then Completed 0 true 500001
                               else Raised (Exception "not asked"))).
    unfold _create_30sec_clip in Hdep. fold cmd in Hdep.
    destruct (list_eq_dec Arg_eq_dec cmd cmd) as [_ | Hcc];
      [|now apply Hcc].
    destruct (list_eq_dec Arg_eq_dec cmd' cmd) as [Heq | _];
      [now apply Hne|].
    discriminate Hdep.
  - intros cfg run1 run2 video_path clean_title progress_callback segments s
           Hsame.
    apply clips_loop_asks_ffmpeg_cmd. intros k segment Hk.
    apply Hsame. exact Hk.
  - intros. reflexivity.
  - intros cfg s1 s2 a1 a2 H1 H2.
    cbn in H1, H2. injection H1 as <-. injection H2 as <-.
    split; [|intros Hlt]; lra.
Qed.

(** The final window of the 100 second plan against a full one: its
    fade-out starts 5 seconds earlier.  And a world that differs from
    another only on the empty command yields the same batch. *)
Lemma C7_witness :
  (exists a1 a2 : Q,
      (a2 - a1 == 30 - 25)%Q /\ ((25 < 30)%Q -> (a1 < a2)%Q))
  /\ clips_loop default_Config (w_run one_missing_World) "downloads/v.mp4"
       "t" None 2 0
       [mkSegment 0 30 30 1 false; mkSegment 75 100 25 4 true] []
       progress_state_init
     = clips_loop default_Config
         (fun i cmd => match cmd with
                       | [] => Raised (Exception "no command")
                       | _ :: _ => w_run one_missing_World i cmd
                       end)
         "downloads/v.mp4" "t" None 2 0
         [mkSegment 0 30 30 1 false; mkSegment 75 100 25 4 true] []
         progress_state_init.
Proof.
  split.
  - exists (25 - (2 # 10))%Q, (30 - (2 # 10))%Q.
    exact (proj2 (proj2 (proj2 C7_fade_out_anchored_at_window_duration))
             default_Config
             (mkSegment 75 100 25 4 true) (mkSegment 0 30 30 1 false)
             _ _ eq_refl eq_refl).
  - apply (proj1 (proj2 C7_fade_out_anchored_at_window_duration)
             default_Config (w_run one_missing_World)
             (fun i cmd => match cmd with
                           | [] => Raised (Exception "no command")
                           | _ :: _ => w_run one_missing_World i cmd
                           end)
             "downloads/v.mp4" "t" None
             [mkSegment 0 30 30 1 false; mkSegment 75 100 25 4 true]
             progress_state_init).
    intros i segment _. reflexivity.
Defined.

(** The transcode step of a window is asked with exactly that command. *)
Lemma _create_30sec_clip_asks_ffmpeg_cmd (cfg : Config)
    (run1 run2 : list Arg -> RunResult) (video_path : string)
    (segment : Segment) (output_path : Path) :
  run1 (ffmpeg_cmd cfg video_path segment output_path)
  = run2 (ffmpeg_cmd cfg video_path segment output_path) ->
  _create_30sec_clip cfg run1 video_path segment output_path
  = _create_30sec_clip cfg run2 video_path segment output_path.
Proof.
  unfold _create_30sec_clip. now intros ->.
Qed.

(** ** The batch *)

Section BatchFacts.

Variable cfg : Config.
Variable subprocess_run : nat -> list Arg -> RunResult.
Variables video_path clean_title : string.
Variable progress_callback : option callback_type.
Variable total : nat.

Local Abbreviation loop := (clips_loop cfg subprocess_run video_path clean_title
                          progress_callback total).
Local Abbreviation good := (successful cfg subprocess_run video_path clean_title).
Local Abbreviation flags := (outcomes cfg subprocess_run video_path clean_title).

(** An encode succeeds exactly when the call returned 0, the output file
    exists and it is larger than 500000 bytes. *)
Lemma _create_30sec_clip_true (run : list Arg -> RunResult)
    (segment : Segment) (output_path : Path) :
  _create_30sec_clip cfg run video_path segment output_path = true
  <-> exists file_size,
        run (ffmpeg_cmd cfg video_path segment output_path)
        = Completed 0 true file_size
        /\ 500000 < file_size.
Proof.
  unfold _create_30sec_clip.
  destruct (run _) as [rc ex size|e].
  - destruct (rc =? 0) eqn:Hrc; simpl.
    + apply Z.eqb_eq in Hrc. subst rc.
      destruct ex; simpl.
      * destruct (500000 <? size) eqn:Hsz.
        -- apply Z.ltb_lt in Hsz. split; [|reflexivity].
           intros _. exists size. now split.
        -- apply Z.ltb_ge in Hsz. split; [discriminate|].
           intros (sz & [= <-] & Hlt). lia.
      * split; [discriminate|]. intros (sz & [=] & _).
    + apply Z.eqb_neq in Hrc. split; [discriminate|].
      intros (sz & [= -> _ _] & _). exfalso. now apply Hrc.
  - destruct e; (split; [discriminate|]); intros (sz & [=] & _).
Qed.

Lemma clips_loop_windows :
  forall (rest : list Segment) (i : nat) (created : list Clip)
         (s : ProgressState),
    map window_of_clip (fst (loop i rest created s))
    = map window_of_clip created ++ map window_of_segment (good i rest).
Proof.
  induction rest as [|segment rest IH]; intros i created s.
  - simpl. now rewrite app_nil_r.
  - cbn [clips_loop successful]. rewrite IH. unfold succeeds.
    destruct (_create_30sec_clip cfg (subprocess_run i) video_path segment _).
    + rewrite map_app, <- app_assoc. reflexivity.
    + reflexivity.
Qed.

Lemma successful_count (rest : list Segment) :
  forall i,
    List.length (good i rest) = count_occ bool_dec (flags i rest) true
    /\ (count_occ bool_dec (flags i rest) true
        + count_occ bool_dec (flags i rest) false
        = List.length rest)%nat.
Proof.
  induction rest as [|segment rest IH]; intro i; [split; reflexivity|].
  destruct (IH (S i)) as [IH1 IH2].
  cbn [successful outcomes].
  destruct (succeeds cfg subprocess_run video_path clean_title i segment);
    simpl; split; lia.
Qed.

End BatchFacts.

(** C6.  For every plan and whatever the outside world answers to each
    encode, the batch loop returns (nothing is raised past a window): its
    clips are the windows whose encode succeeded, one clip each and in plan
    order, so their number is the number of planned windows less the number
    of failed ones, and may be 0.  An encode fails when the call raises (a
    timeout or any other exception), returns non-zero, leaves no output file
    or leaves one of at most 500000 bytes. *)
Theorem C6_one_clip_per_successful_window
    (cfg : Config) (subprocess_run : nat -> list Arg -> RunResult)
    (video_path clean_title : string)
    (progress_callback : option callback_type)
    (segments : list Segment) (s : ProgressState) :
  let created_clips :=
    fst (clips_loop cfg subprocess_run video_path clean_title
           progress_callback (List.length segments) 0 segments [] s) in
  let flags :=
    outcomes cfg subprocess_run video_path clean_title 0 segments in
  map window_of_clip created_clips
  = map window_of_segment
      (successful cfg subprocess_run video_path clean_title 0 segments)
  /\ (List.length created_clips + count_occ bool_dec flags false
      = List.length segments)%nat
  /\ List.length created_clips = count_occ bool_dec flags true
  /\ (forall i segment,
        succeeds cfg subprocess_run video_path clean_title i segment = false
        <-> ~ exists file_size,
              subprocess_run i
                (ffmpeg_cmd cfg video_path segment
                   (os_path_join (OUTPUT_DIR cfg)
                      (output_filename_of clean_title segment)))
              = Completed 0 true file_size
              /\ 500000 < file_size).
Proof.
  intros created_clips flags.
  assert (Hw : map window_of_clip created_clips
               = map window_of_segment
                   (successful cfg subprocess_run video_path clean_title
                      0 segments))
    by apply clips_loop_windows.
  assert (Hlen : List.length created_clips = count_occ bool_dec flags true).
  { rewrite <- (length_map window_of_clip), Hw, length_map.
    apply successful_count. }
  split; [exact Hw|]. split; [|split; [exact Hlen|]].
  - rewrite Hlen. apply successful_count.
  - intros i segment. unfold succeeds.
    rewrite <- _create_30sec_clip_true.
    destruct (_create_30sec_clip _ _ _ _ _); split;
      congruence.
Qed.

(** A plan of four windows in a world where the encode of the second leaves
    no output file: three clips, numbered 1, 3 and 4. *)
Example batch_with_one_missing_file :
  option_map (fun r => map c_clip_number (fst r))
    (create_all_30sec_clips default_Config (w_probe one_missing_World)
       (w_run one_missing_World) "downloads/v.mp4" "t"
       (Some update_progress) progress_state_init)
  = Some [1; 3; 4].
Proof. reflexivity. Qed.

(** The four kinds of failure, and a success. *)
Example encode_outcomes :
  let try r := _create_30sec_clip default_Config (fun _ => r) "v.mp4"
                 (mkSegment 0 30 30 1 false)
                 (os_path_join "all_30sec_shorts" [Lit "t.mp4"]) in
  try (Completed 1 true 2097152) = false
  /\ try (Completed 0 false 0) = false
  /\ try (Completed 0 true 500000) = false
  /\ try (Raised (TimeoutExpired "timed out after 180 seconds")) = false
  /\ try (Raised (Exception "ffmpeg not found")) = false
  /\ try (Completed 0 true 500001) = true.
Proof. repeat split. Qed.

(** ** The progress record *)

(** The endpoint returns in every world (the planner never lacks fuel). *)
Lemma generate_shorts_returns (cfg : Config) (w : World) (data : Request)
    (s : ProgressState) :
  exists r, generate_shorts cfg w data s = Some r.
Proof.
  assert (Hc : forall probe run vp t cb s0,
             exists r, create_all_30sec_clips cfg probe run vp t cb s0
                       = Some r).
  { intros. unfold create_all_30sec_clips.
    destruct (probe vp) as [d|e]; [|eauto].
    destruct (calculate_all_clip_segments_ok cfg d) as (segs & -> & _).
    destruct segs; eauto. }
  unfold generate_shorts, generate_shorts_body.
  destruct (url data) as [[|c u]|]; try (eexists; reflexivity).
  destruct (download_video w _ _) as [[[[vp t] md]|e] s1];
    [|eexists; reflexivity].
  match goal with
  | |- context [create_all_30sec_clips ?c ?p ?r ?v ?t ?cb ?s0] =>
      destruct (Hc p r v t cb s0) as ([clips s2] & ->)
  end.
  destruct (generate_comprehensive_report _ _ _ _ _) as [[p [r|]]|e];
    try (eexists; reflexivity).
  destruct (w_read_json w p); eexists; reflexivity.
Qed.

(** C8 as stated fails on the error path.  When the download raises, the
    record is left with the status and error of the failure and with the
    message and percentage of the milestone before it. *)
Lemma C8_counterexample :
  generate_shorts default_Config failing_World
    (mkRequest (Some "https://example.org/watch?v=1") None)
    progress_state_init
  = Some (JsonError "download failed" 500,
          mkProgress "error" [Lit "Downloading YouTube video..."] 10 0 0
                     (Some "download failed"))
  /\ ~ fully_overwrites (error_handler (Exception "download failed")).
Proof.
  split; [reflexivity|].
  intros H.
  specialize (H progress_state_init
                (mkProgress "processing" [Lit "Creating final report..."]
                            90 0 0 None)).
  discriminate H.
Qed.

(** *** A run as a list of mutations *)

Lemma replay_app (ms1 ms2 : list Mutation) (s : ProgressState) :
  replay (ms1 ++ ms2) s = replay ms2 (replay ms1 s).
Proof. apply fold_left_app. Qed.

Lemma progress_hook_replay (d : HookEvent) (s : ProgressState) :
  progress_hook d s = replay (progress_hook_mutations d) s.
Proof. destruct d as [[p|]| |]; reflexivity. Qed.

Lemma hooks_replay (events : list HookEvent) :
  forall s,
    fold_left (fun s d => progress_hook d s) events s
    = replay (flat_map progress_hook_mutations events) s.
Proof.
  induction events as [|d events IH]; intros s; [reflexivity|].
  cbn [fold_left flat_map]. rewrite replay_app, IH, progress_hook_replay.
  reflexivity.
Qed.

(** The clips of the batch do not depend on the callback, and with
    [update_progress] the record is mutated once per window. *)
Lemma clips_loop_split (cfg : Config)
    (subprocess_run : nat -> list Arg -> RunResult)
    (video_path clean_title : string) (total : nat) :
  forall (rest : list Segment) (i : nat) (created : list Clip)
         (s s0 : ProgressState),
    clips_loop cfg subprocess_run video_path clean_title
      (Some update_progress) total i rest created s
    = (fst (clips_loop cfg subprocess_run video_path clean_title None total
              i rest created s0),
       replay (clips_loop_mutations total i rest) s).
Proof.
  induction rest as [|segment rest IH]; intros i created s s0;
    [reflexivity|].
  cbn [clips_loop clips_loop_mutations]. cbv zeta.
  rewrite (IH _ _ _ s0). reflexivity.
Qed.

Lemma create_all_30sec_clips_split (cfg : Config)
    (probe : string -> Result Q)
    (subprocess_run : nat -> list Arg -> RunResult)
    (video_path title : string) (s s0 : ProgressState) :
  create_all_30sec_clips cfg probe subprocess_run video_path title
    (Some update_progress) s
  = option_map
      (fun r => (fst r,
                 replay (create_all_30sec_clips_mutations cfg probe
                           video_path) s))
      (create_all_30sec_clips cfg probe subprocess_run video_path title
         None s0).
Proof.
  unfold create_all_30sec_clips, create_all_30sec_clips_mutations.
  destruct (probe video_path) as [d|e]; [|reflexivity].
  destruct (calculate_all_clip_segments cfg d) as [[|seg segments]|];
    try reflexivity.
  cbn [option_map]. rewrite (clips_loop_split _ _ _ _ _ _ _ _ s s0).
  reflexivity.
Qed.

(** [generate_shorts] does to the record what its mutations do, one after
    the other, whatever the record held. *)
Lemma generate_shorts_replay (cfg : Config) (w : World) (data : Request)
    (s : ProgressState) :
  generate_shorts cfg w data s
  = option_map (fun r => (fst r, replay (snd r) s))
      (generate_shorts_trace cfg w data).
Proof.
  unfold generate_shorts, generate_shorts_body, generate_shorts_trace.
  destruct (url data) as [[|c u]|]; try reflexivity.
  unfold download_video.
  destruct (w_download w (String c u)) as [events [[video_path metadata]|e]].
  2:{ cbn [option_map fst snd]. rewrite replay_app, replay_app, hooks_replay.
      reflexivity. }
  match goal with
  | |- context [create_all_30sec_clips cfg ?p ?r ?v ?t (Some update_progress)
                  ?s1] =>
      rewrite (create_all_30sec_clips_split cfg p r v t s1
                 progress_state_init)
  end.
  destruct (create_all_30sec_clips cfg (w_probe w) (w_run w) video_path
              (md_title metadata) None progress_state_init)
    as [[clips s2]|]; [|reflexivity].
  cbn [option_map fst snd].
  destruct (generate_comprehensive_report _ _ _ _ _) as [[p [r|]]|e].
  - cbn [option_map fst snd]. rewrite !replay_app. reflexivity.
  - destruct (w_read_json w p) as [r|e]; cbn [option_map fst snd];
      rewrite !replay_app; reflexivity.
  - cbn [option_map fst snd]. rewrite !replay_app. reflexivity.
Qed.

Lemma Forall_is_overwrite_hooks (events : list HookEvent) :
  Forall is_overwrite (flat_map progress_hook_mutations events).
Proof.
  induction events as [|d events IH]; [constructor|].
  cbn [flat_map]. apply Forall_app. split; [|exact IH].
  destruct d as [[p|]| |]; repeat constructor.
Qed.

Lemma Forall_is_overwrite_batch (total : nat) (rest : list Segment) :
  forall i, Forall is_overwrite (clips_loop_mutations total i rest).
Proof.
  induction rest as [|seg rest IH]; intros i; constructor;
    [exact I | apply IH].
Qed.

Lemma Forall_is_overwrite_create_all (cfg : Config)
    (probe : string -> Result Q) (video_path : string) :
  Forall is_overwrite (create_all_30sec_clips_mutations cfg probe video_path).
Proof.
  unfold create_all_30sec_clips_mutations.
  destruct (probe video_path) as [d|e]; [|constructor].
  destruct (calculate_all_clip_segments cfg d); [|constructor].
  apply Forall_is_overwrite_batch.
Qed.

Lemma generate_shorts_trace_shape (cfg : Config) (w : World)
    (data : Request) (response : Response) (ms : list Mutation) :
  generate_shorts_trace cfg w data = Some (response, ms) ->
  run_shape response ms.
Proof.
  unfold generate_shorts_trace.
  destruct (url data) as [[|c u]|];
    try (intros [= <- <-]; left; split; reflexivity).
  destruct (w_download w (String c u)) as [events [[video_path metadata]|e]].
  2:{ intros [= <- <-]. right; right.
      exists e, (Overwrite "downloading" [Lit "Starting download..."] 0 0 0
                 :: Overwrite "downloading"
                      [Lit "Downloading YouTube video..."] 10 0 0
                 :: flat_map progress_hook_mutations events).
      split; [reflexivity|]. split; [reflexivity|].
      constructor; [exact I|]. constructor; [exact I|].
      apply Forall_is_overwrite_hooks. }
  destruct (create_all_30sec_clips cfg (w_probe w) (w_run w) video_path
              (md_title metadata) None progress_state_init)
    as [[clips s2]|]; [|discriminate].
  match goal with
  | |- context [?a ++ [complete_milestone ?n]] => set (pre := a)
  | |- context [?a ++ [Overwrite "complete" ?m 100 ?n ?n']] => set (pre := a)
  end.
  assert (Hpre : Forall is_overwrite pre).
  { unfold pre. repeat (apply Forall_app; split);
      try apply Forall_is_overwrite_hooks;
      try apply Forall_is_overwrite_create_all;
      repeat constructor.
    destruct (w_probe w video_path) as [d|e]; [|exact I].
    destruct (step_size cfg =? 0); exact I. }
  clearbody pre.
  destruct (generate_comprehensive_report _ _ _ _ _) as [[p [r|]]|e].
  - intros [= <- <-]. right; left. eexists r, pre, _.
    split; [reflexivity|]. split; [reflexivity|exact Hpre].
  - destruct (w_read_json w p) as [r|e]; intros [= <- <-].
    + right; left. eexists r, pre, _.
      split; [reflexivity|]. split; [reflexivity|exact Hpre].
    + right; right. exists e, pre.
      split; [reflexivity|]. split; [reflexivity|exact Hpre].
  - intros [= <- <-]. right; right. exists e, pre.
    split; [reflexivity|]. split; [reflexivity|exact Hpre].
Qed.

Lemma generate_shorts_trace_returns (cfg : Config) (w : World)
    (data : Request) :
  exists response ms, generate_shorts_trace cfg w data = Some (response, ms).
Proof.
  destruct (generate_shorts_returns cfg w data progress_state_init)
    as ([response s'] & Hgs).
  rewrite generate_shorts_replay in Hgs.
  destruct (generate_shorts_trace cfg w data) as [[r ms]|];
    [eauto | discriminate].
Qed.

(** The endpoint does to the record what its mutations do, whatever the
    record held. *)
Lemma generate_shorts_endpoint_replay (cfg : Config) (w : World)
    (other_download : list HookEvent * Result (string * Metadata))
    (body : Body) (s : ProgressState) :
  generate_shorts_endpoint cfg w other_download body s
  = option_map (fun r => (fst r, replay (snd r) s))
      (generate_shorts_endpoint_trace cfg w other_download body).
Proof.
  destruct body as [e|e|u od]; try reflexivity.
  apply generate_shorts_replay.
Qed.

Lemma generate_shorts_endpoint_trace_ok (cfg : Config) (w : World)
    (other_download : list HookEvent * Result (string * Metadata))
    (body : Body) :
  exists response ms,
    generate_shorts_endpoint_trace cfg w other_download body
    = Some (response, ms)
    /\ (forall s, generate_shorts_endpoint cfg w other_download body s
                  = Some (response, replay ms s))
    /\ run_shape response ms.
Proof.
  assert (H : exists response ms,
             generate_shorts_endpoint_trace cfg w other_download body
             = Some (response, ms) /\ run_shape response ms).
  { destruct body as [e|e|u od]; cbn [generate_shorts_endpoint_trace].
    - exists (JsonError (str_exn e) 500), [Patch e].
      split; [reflexivity|]. right; right. exists e, [].
      repeat split. constructor.
    - exists (JsonError (str_exn e) 500), [Patch e].
      split; [reflexivity|]. right; right. exists e, [].
      repeat split. constructor.
    - destruct (generate_shorts_trace_returns cfg
                  (world_of w other_download u od) (data_of u od))
        as (response & ms & Ht).
      exists response, ms. split; [exact Ht|].
      apply (generate_shorts_trace_shape _ _ _ _ _ Ht). }
  destruct H as (response & ms & Ht & Hshape).
  exists response, ms. split; [exact Ht|]. split; [|exact Hshape].
  intros s. rewrite generate_shorts_endpoint_replay, Ht. reflexivity.
Qed.

Lemma replay_ends_in_overwrite (pre : list Mutation) (st : string)
    (msg : FString) (pct tot cur : Z) (s : ProgressState) :
  replay (pre ++ [Overwrite st msg pct tot cur]) s
  = mkProgress st msg pct tot cur None.
Proof. rewrite replay_app. reflexivity. Qed.

Lemma replay_ends_in_patch (pre : list Mutation) (e : exn)
    (s : ProgressState) :
  replay (pre ++ [Patch e]) s
  = mkProgress "error" (message (replay pre s)) (progress (replay pre s))
      (total_clips (replay pre s)) (current_clip (replay pre s))
      (Some (str_exn e)).
Proof. rewrite replay_app. reflexivity. Qed.

(** Calls of [update_progress], if there is one, leave the record of the
    last of them. *)
Lemma replay_overwrites (pre : list Mutation) :
  Forall is_overwrite pre -> pre <> [] ->
  exists st msg pct tot cur,
    In (Overwrite st msg pct tot cur) pre
    /\ forall s, replay pre s = mkProgress st msg pct tot cur None.
Proof.
  intros Hall Hne.
  destruct (exists_last Hne) as (pre' & m & ->).
  apply Forall_app in Hall. destruct Hall as [_ Hm].
  inversion Hm as [|? ? Hov _]; subst.
  destruct m as [st msg pct tot cur|e]; [|contradiction].
  exists st, msg, pct, tot, cur. split.
  - apply in_or_app. right. left. reflexivity.
  - intros s. apply replay_ends_in_overwrite.
Qed.

(** C8, amended.  Every mutation made through [update_progress] overwrites
    all six fields: the five arguments and [error = None], whatever the
    record held.  The handler of an exception in [generate_shorts] sets
    [status] to ['error'] and [error] to the exception's text and keeps the
    other four fields.  These are the only mutations of a run, and the
    handler's comes last if at all: whatever the request and the world, the
    endpoint returns, and what it does to the record is a list of
    mutations that does not depend on what the record held, empty with the
    answer 400, calls of [update_progress] ending in the milestone
    ['complete'] with the report, and calls of [update_progress] followed
    by the one patch of the handler with the answer 500.  So a run that
    ends in the handler after a milestone leaves the message, percentage
    and counts of that milestone under the status and error of the
    failure, a mix of the two; and one that fails before any milestone
    leaves those four fields as the run found them. *)
Theorem C8_update_progress_overwrites_all_fields :
  (forall st msg pct tot cur,
     fully_overwrites (update_progress st msg pct tot cur)
     /\ forall s, update_progress st msg pct tot cur s
                  = mkProgress st msg pct tot cur None)
  /\ (forall e s,
        error_handler e s
        = mkProgress "error" (message s) (progress s) (total_clips s)
                     (current_clip s) (Some (str_exn e)))
  /\ (forall cfg w other_download body,
        exists response ms,
          generate_shorts_endpoint_trace cfg w other_download body
          = Some (response, ms)
          /\ (forall s, generate_shorts_endpoint cfg w other_download body s
                        = Some (response, replay ms s))
          /\ run_shape response ms)
  /\ (forall pre st msg pct tot cur s,
        replay (pre ++ [Overwrite st msg pct tot cur]) s
        = mkProgress st msg pct tot cur None)
  /\ (forall pre e s,
        Forall is_overwrite pre ->
        (pre = []
         /\ replay (pre ++ [Patch e]) s
            = mkProgress "error" (message s) (progress s) (total_clips s)
                (current_clip s) (Some (str_exn e)))
        \/ (exists st msg pct tot cur,
              In (Overwrite st msg pct tot cur) pre
              /\ replay (pre ++ [Patch e]) s
                 = mkProgress "error" msg pct tot cur (Some (str_exn e)))).
Proof.
  split; [|split; [|split; [|split]]].
  - intros. split; [intros s1 s2|intros s]; reflexivity.
  - reflexivity.
  - apply generate_shorts_endpoint_trace_ok.
  - apply replay_ends_in_overwrite.
  - intros pre e s Hall. destruct pre as [|m pre'] eqn:Hpre.
    + left. split; reflexivity.
    + right. rewrite <- Hpre in *.
      destruct (replay_overwrites pre Hall) as (st & msg & pct & tot & cur
                                                & Hin & Hrep);
        [rewrite Hpre; discriminate|].
      exists st, msg, pct, tot, cur. split; [exact Hin|].
      rewrite replay_ends_in_patch, Hrep. reflexivity.
Qed.

(** A download that raises: two milestones, then the handler's patch, and
    the record a mix of the second milestone and the failure. *)
Lemma C8_witness :
  (exists response ms,
     generate_shorts_endpoint_trace default_Config failing_World
       ([], Raise (Exception "not a URL"))
       (BodyDict (Str "https://example.org/watch?v=1") Missing)
     = Some (response, ms)
     /\ (forall s, generate_shorts_endpoint default_Config failing_World
                     ([], Raise (Exception "not a URL"))
                     (BodyDict (Str "https://example.org/watch?v=1") Missing)
                     s
                   = Some (response, replay ms s))
     /\ run_shape response ms)
  /\ generate_shorts_endpoint_trace default_Config failing_World
       ([], Raise (Exception "not a URL"))
       (BodyDict (Str "https://example.org/watch?v=1") Missing)
     = Some (JsonError "download failed" 500,
             [ Overwrite "downloading" [Lit "Starting download..."] 0 0 0;
               Overwrite "downloading" [Lit "Downloading YouTube video..."]
                 10 0 0;
               Patch (Exception "download failed") ])
  /\ Forall is_overwrite
       [ Overwrite "downloading" [Lit "Starting download..."] 0 0 0;
         Overwrite "downloading" [Lit "Downloading YouTube video..."]
           10 0 0 ]
  /\ ((([ Overwrite "downloading" [Lit "Starting download..."] 0 0 0;
          Overwrite "downloading" [Lit "Downloading YouTube video..."]
            10 0 0 ] : list Mutation) = []
       /\ replay
            ([ Overwrite "downloading" [Lit "Starting download..."] 0 0 0;
               Overwrite "downloading" [Lit "Downloading YouTube video..."]
                 10 0 0 ] ++ [Patch (Exception "download failed")])
            progress_state_init
          = mkProgress "error" (message progress_state_init)
              (progress progress_state_init)
              (total_clips progress_state_init)
              (current_clip progress_state_init)
              (Some (str_exn (Exception "download failed"))))
      \/ (exists st msg pct tot cur,
            In (Overwrite st msg pct tot cur)
              [ Overwrite "downloading" [Lit "Starting download..."] 0 0 0;
                Overwrite "downloading"
                  [Lit "Downloading YouTube video..."] 10 0 0 ]
            /\ replay
                 ([ Overwrite "downloading" [Lit "Starting download..."]
                      0 0 0;
                    Overwrite "downloading"
                      [Lit "Downloading YouTube video..."] 10 0 0 ]
                  ++ [Patch (Exception "download failed")])
                 progress_state_init
               = mkProgress "error" msg pct tot cur
                   (Some (str_exn (Exception "download failed"))))).
Proof.
  split; [|split; [reflexivity|]].
  - exact (proj1 (proj2 (proj2 C8_update_progress_overwrites_all_fields))
             default_Config failing_World
             ([], Raise (Exception "not a URL"))
             (BodyDict (Str "https://example.org/watch?v=1") Missing)).
  - assert (H : Forall is_overwrite
                  [ Overwrite "downloading" [Lit "Starting download..."]
                      0 0 0;
                    Overwrite "downloading"
                      [Lit "Downloading YouTube video..."] 10 0 0 ])
      by (repeat constructor).
    split; [exact H|].
    exact (proj2 (proj2 (proj2 (proj2
             C8_update_progress_overwrites_all_fields)))
             _ (Exception "download failed") progress_state_init H).
Defined.

(** A request without a JSON body ends in the handler before any
    milestone: the record keeps what the run before left in it, under the
    status ['error']. *)
Example run_without_body :
  generate_shorts_endpoint default_Config failing_World
    ([], Raise (Exception "not a URL"))
    (BodyRaises (Exception "415 Unsupported Media Type"))
    (mkProgress "complete"
       [Lit "Successfully generated "; Num 3; Lit " shorts!"] 100 3 3 None)
  = Some (JsonError "415 Unsupported Media Type" 500,
          mkProgress "error"
            [Lit "Successfully generated "; Num 3; Lit " shorts!"]
            100 3 3 (Some "415 Unsupported Media Type")).
Proof. reflexivity. Qed.

(** A run in which one encode leaves no file ends at the milestone
    ['complete'] with three clips. *)
Example run_with_one_missing_file :
  option_map snd
    (generate_shorts default_Config one_missing_World
       (mkRequest (Some "https://example.org/watch?v=1") None)
       progress_state_init)
  = Some (mkProgress "complete"
            [Lit "Successfully generated "; Num 3; Lit " shorts!"]
            100 3 3 None).
Proof. reflexivity. Qed.

(** A run that creates no clip ends in the handler too: there is no report
    to read, and the record keeps the milestone before the failure. *)
Example run_with_no_clips :
  option_map snd
    (generate_shorts default_Config short_video_World
       (mkRequest (Some "https://example.org/watch?v=1") None)
       progress_state_init)
  = Some (mkProgress "error" [Lit "Creating final report..."] 90 0 0
                     (Some "No such file or directory")).
Proof. reflexivity. Qed.

(** * Further properties of the code *)

(** ** One turn of the planner's loop *)

(** How a result of the loop came about: the guard failed; or the window
    was cut at the end of the video and kept, or dropped; or a full window
    was appended and the loop went on. *)
Lemma segments_loop_cases (cfg : Config) (fuel : nat) (d : Q)
    (st c : Z) (segments out : list Segment) :
  segments_loop cfg fuel d st c segments = Some out ->
  (~ ((inject_Z st < d)%Q /\ c < MAX_CLIPS_PER_VIDEO cfg) /\ out = segments)
  \/ ((inject_Z st < d)%Q /\ c < MAX_CLIPS_PER_VIDEO cfg
      /\ (d < inject_Z st + inject_Z (CLIP_DURATION cfg))%Q
      /\ ((inject_Z (MIN_CLIP_DURATION cfg) <= d - inject_Z st)%Q
          /\ out = segments ++
                   [mkSegment (inject_Z st) d (d - inject_Z st) (c + 1) true]
          \/ (d - inject_Z st < inject_Z (MIN_CLIP_DURATION cfg))%Q
             /\ out = segments))
  \/ ((inject_Z st < d)%Q /\ c < MAX_CLIPS_PER_VIDEO cfg
      /\ (inject_Z st + inject_Z (CLIP_DURATION cfg) <= d)%Q
      /\ exists fuel',
           fuel = S fuel'
           /\ segments_loop cfg fuel' d (st + step_size cfg) (c + 1)
                (segments ++
                 [mkSegment (inject_Z st)
                    (inject_Z (st + CLIP_DURATION cfg))
                    (inject_Z (CLIP_DURATION cfg)) (c + 1) false])
              = Some out).
Proof.
  destruct fuel as [|fuel]; simpl;
    destruct (Qlt_bool (inject_Z st) d) eqn:Hst;
    destruct (c <? MAX_CLIPS_PER_VIDEO cfg) eqn:Hc; simpl;
    try discriminate;
    try (intros [= <-]; left; split; [|reflexivity]; intros [H1 H2];
         first [ apply Qlt_bool_iff in H1; congruence
               | apply Z.ltb_lt in H2; congruence ]).
  apply Qlt_bool_iff in Hst. apply Z.ltb_lt in Hc.
  rewrite inject_Z_plus.
  destruct (Qlt_bool d (inject_Z st + inject_Z (CLIP_DURATION cfg))) eqn:He.
  - apply Qlt_bool_iff in He.
    destruct (Qle_bool _ _) eqn:Hm; intros [= <-]; right; left;
      repeat (split; [assumption|]).
    + left. apply Qle_bool_iff in Hm. now split.
    + right. split; [|reflexivity].
      apply Qlt_bool_iff. unfold Qlt_bool. now rewrite Hm.
  - apply Qlt_bool_false_iff in He. intros Hrec. right; right.
    repeat (split; [assumption|]). exists fuel. split; [reflexivity|].
    exact Hrec.
Qed.

(** ** How many windows a plan has *)

Lemma Qfloor_unique (x : Q) (c : Z) :
  (inject_Z c <= x)%Q -> (x < inject_Z (c + 1))%Q -> Qfloor x = c.
Proof.
  intros Hlo Hhi.
  pose proof (Qfloor_resp_le _ _ Hlo) as H1. rewrite Qfloor_Z in H1.
  pose proof (Qle_lt_trans _ _ _ (Qfloor_le x) Hhi) as H2.
  rewrite <- Zlt_Qlt in H2. lia.
Qed.

Lemma Qdiv_25 (x : Q) : (x / 25 == x * (1 # 25))%Q.
Proof. reflexivity. Qed.

Lemma Qfloor_div_25 (d : Q) (c : Z) :
  (25 * inject_Z c <= d)%Q -> (d < 25 * inject_Z c + 25)%Q ->
  Qfloor (d / 25) = c.
Proof.
  intros Hlo Hhi. apply Qfloor_unique.
  - rewrite Qdiv_25. lra.
  - rewrite Qdiv_25, inject_Z_plus. change (inject_Z 1) with 1%Q. lra.
Qed.

Lemma Qfloor_div_25_ge (d : Q) (c : Z) :
  (25 * inject_Z c <= d)%Q -> c <= Qfloor (d / 25).
Proof.
  intros Hlo. rewrite <- (Qfloor_Z c). apply Qfloor_resp_le.
  rewrite Qdiv_25. lra.
Qed.

(** [int(x)] is the floor of a number that is not negative. *)
Lemma int_of_Q_nonneg (x : Q) : (0 <= x)%Q -> int_of_Q x = Qfloor x.
Proof.
  destruct x as [n p]. unfold Qle, int_of_Q, Qfloor. simpl. intros Hn.
  apply Z.quot_div_nonneg; lia.
Qed.

Lemma segments_loop_length (d : Q) :
  (0 <= d)%Q ->
  forall (fuel : nat) (st c : Z) (segments out : list Segment),
    st = 25 * c -> 0 <= c <= 100 ->
    Z.of_nat (List.length segments) = c ->
    c = 0 \/ (25 * inject_Z c + 5 <= d)%Q ->
    segments_loop default_Config fuel d st c segments = Some out ->
    Z.of_nat (List.length out) = Z.min (Qfloor (d / 25)) 100.
Proof.
  intros Hd.
  induction fuel as [|fuel IH]; intros st c segments out Hst Hc Hlen Hinv Hout;
    apply segments_loop_cases in Hout; subst st;
    rewrite inject_Z_mult in Hout;
    change (inject_Z 25) with 25%Q in Hout;
    change (inject_Z (CLIP_DURATION default_Config)) with 30%Q in Hout;
    change (inject_Z (MIN_CLIP_DURATION default_Config)) with 25%Q in Hout;
    change (MAX_CLIPS_PER_VIDEO default_Config) with 100 in Hout;
    destruct Hout as [[Hg ->] | [(Hs & Hm & He & Hfin) | (Hs & Hm & He & Hrec)]].
  1, 4:
    (destruct Hinv as [H0 | Hinv];
     [ rewrite Hlen; rewrite H0 in *; change (inject_Z 0) with 0%Q in *;
       assert (Hd0 : (d <= 0)%Q)
         by (apply Qnot_lt_le; intros H; apply Hg; split; [lra | lia]);
       rewrite (Qfloor_div_25 d 0) by (change (inject_Z 0) with 0%Q; lra);
       reflexivity
     | assert (Hc100 : c = 100)
         by (destruct (Z.eq_dec c 100) as [|Hne]; [assumption|];
             exfalso; apply Hg; split; [lra | lia]);
       rewrite Hlen; rewrite Hc100 in *;
       pose proof (Qfloor_div_25_ge d 100) as Hq;
       change (inject_Z 100) with 100%Q in *;
       assert (100 <= Qfloor (d / 25)) by (apply Hq; lra); lia ]).
  1, 3:
    (destruct Hfin as [[Hmin ->] | [Hmin ->]];
     [ rewrite length_app; simpl List.length;
       rewrite (Qfloor_div_25 d (c + 1))
         by (rewrite inject_Z_plus; change (inject_Z 1) with 1%Q; lra);
       lia
     | rewrite (Qfloor_div_25 d c) by lra; lia ]).
  - destruct Hrec as (fuel' & [=] & _).
  - destruct Hrec as (fuel' & [= <-] & Hrec).
    apply IH in Hrec; [exact Hrec | | lia | | ].
    + change (step_size default_Config) with 25. lia.
    + rewrite length_app. simpl. lia.
    + right. rewrite inject_Z_plus. change (inject_Z 1) with 1%Q. lra.
Qed.

(** The number of windows of a configured plan. *)
Lemma plan_length (d : Q) (segments : list Segment) :
  (0 <= d)%Q ->
  calculate_all_clip_segments default_Config d = Some segments ->
  Z.of_nat (List.length segments) = Z.min (Qfloor (d / 25)) 100.
Proof.
  intros Hd Heq.
  apply (segments_loop_length d Hd _ 0 0 [] segments) in Heq;
    [exact Heq | reflexivity | lia | reflexivity | now left].
Qed.

(** X1.  For a video of [d >= 0] seconds the configured planner returns
    exactly [min(floor(d / 25), 100)] windows. *)
Theorem X1_plan_length (d : Q) :
  (0 <= d)%Q ->
  exists segments,
    calculate_all_clip_segments default_Config d = Some segments
    /\ Z.of_nat (List.length segments) = Z.min (Qfloor (d / 25)) 100.
Proof.
  intros Hd.
  destruct (calculate_all_clip_segments_ok default_Config d)
    as (segments & Heq & _).
  exists segments. split; [exact Heq|].
  now apply plan_length.
Qed.

Lemma X1_witness :
  (0 <= 100)%Q /\
  exists segments,
    calculate_all_clip_segments default_Config 100 = Some segments
    /\ Z.of_nat (List.length segments) = Z.min (Qfloor (100 / 25)) 100.
Proof.
  split; [discriminate|]. apply (X1_plan_length 100). discriminate.
Defined.

(** X2.  The number of clips [generate_shorts] announces before encoding,
    [min(int(d / 25) + 1, 100)], is one more than the number of windows the
    planner returns for every [0 <= d < 2500], and equal to it (both 100)
    from 2500 seconds on. *)
Theorem X2_estimate_is_one_too_many (d : Q) :
  (0 <= d)%Q ->
  exists segments,
    calculate_all_clip_segments default_Config d = Some segments
    /\ ((d < 2500)%Q ->
        expected_clips default_Config d
        = Z.of_nat (List.length segments) + 1)
    /\ ((2500 <= d)%Q ->
        expected_clips default_Config d = 100
        /\ List.length segments = 100%nat).
Proof.
  intros Hd.
  destruct (calculate_all_clip_segments_ok default_Config d)
    as (segments & Heq & _).
  pose proof (plan_length d segments Hd Heq) as Hlen.
  exists segments. split; [exact Heq|].
  assert (He : expected_clips default_Config d
               = Z.min (Qfloor (d / 25) + 1) 100).
  { unfold expected_clips.
    change (inject_Z (step_size default_Config)) with 25%Q.
    change (MAX_CLIPS_PER_VIDEO default_Config) with 100.
    rewrite int_of_Q_nonneg; [reflexivity|]. rewrite Qdiv_25. lra. }
  assert (H0 : 0 <= Qfloor (d / 25)).
  { apply (Qfloor_div_25_ge d 0). change (inject_Z 0) with 0%Q. lra. }
  split; intros Hcmp.
  - assert (Qfloor (d / 25) < 100).
    { rewrite Zlt_Qlt. apply Qle_lt_trans with (d / 25)%Q;
        [apply Qfloor_le|]. rewrite Qdiv_25.
      change (inject_Z 100) with 100%Q. lra. }
    lia.
  - assert (100 <= Qfloor (d / 25)).
    { apply (Qfloor_div_25_ge d 100). change (inject_Z 100) with 100%Q. lra. }
    lia.
Qed.

Lemma X2_witness :
  (0 <= 100)%Q /\
  exists segments,
    calculate_all_clip_segments default_Config 100 = Some segments
    /\ ((100 < 2500)%Q ->
        expected_clips default_Config 100
        = Z.of_nat (List.length segments) + 1)
    /\ ((2500 <= 100)%Q ->
        expected_clips default_Config 100 = 100
        /\ List.length segments = 100%nat).
Proof.
  split; [discriminate|].
  apply (X2_estimate_is_one_too_many 100). discriminate.
Defined.

(** Below 25 seconds nothing is planned. *)
Lemma short_plan_empty (d : Q) :
  (d < 25)%Q -> calculate_all_clip_segments default_Config d = Some [].
Proof.
  intros Hlt.
  destruct (calculate_all_clip_segments_ok default_Config d)
    as (segments & Heq & _).
  rewrite Heq. f_equal.
  destruct (Qlt_le_dec d 0) as [Hneg | Hd].
  - apply segments_loop_cases in Heq.
    change (inject_Z 0) with 0%Q in Heq.
    destruct Heq as [[_ ->] | [(Hs & _) | (Hs & _)]];
      [reflexivity | lra | lra].
  - pose proof (plan_length d segments Hd Heq) as Hlen.
    rewrite (Qfloor_div_25 d 0) in Hlen
      by (change (inject_Z 0) with 0%Q; lra).
    destruct segments; [reflexivity | simpl List.length in Hlen; lia].
Qed.

(** X3.  The configured planner returns the empty plan exactly for the
    videos shorter than 25 seconds (negative durations included). *)
Theorem X3_empty_plan_iff_too_short (d : Q) :
  calculate_all_clip_segments default_Config d = Some [] <-> (d < 25)%Q.
Proof.
  split; [|apply short_plan_empty].
  intros Heq.
  destruct (Qlt_le_dec d 25) as [Hlt | Hge]; [exact Hlt|]. exfalso.
  assert (Hd : (0 <= d)%Q) by lra.
  pose proof (plan_length d [] Hd Heq) as Hlen.
  change (Z.of_nat (List.length (@nil Segment))) with 0 in Hlen.
  pose proof (Qfloor_div_25_ge d 1) as Hq.
  change (inject_Z 1) with 1%Q in Hq.
  assert (1 <= Qfloor (d / 25)) by (apply Hq; lra). lia.
Qed.

(** ** Where the windows lie *)

Lemma segments_loop_starts (cfg : Config) (d : Q) :
  forall (fuel : nat) (st c : Z) (segments out : list Segment),
    st = step_size cfg * c ->
    Forall (fun s => start_time s
                     = inject_Z (step_size cfg * (clip_number s - 1))
                     /\ (duration s == end_time s - start_time s)%Q) segments ->
    segments_loop cfg fuel d st c segments = Some out ->
    Forall (fun s => start_time s
                     = inject_Z (step_size cfg * (clip_number s - 1))
                     /\ (duration s == end_time s - start_time s)%Q) out.
Proof.
  induction fuel as [|fuel IH]; intros st c segments out Hst Hall Hout;
    apply segments_loop_cases in Hout;
    destruct Hout as [[_ ->] | [(_ & _ & _ & Hfin) | (_ & _ & _ & Hrec)]];
    try exact Hall.
  1, 3:
    (destruct Hfin as [[_ ->] | [_ ->]]; [|exact Hall];
     apply Forall_app; split; [exact Hall|];
     constructor; [|constructor]; simpl; split;
     [subst st; do 2 f_equal; lia | reflexivity]).
  - destruct Hrec as (fuel' & [=] & _).
  - destruct Hrec as (fuel' & [= <-] & Hrec).
    apply IH in Hrec; [exact Hrec | subst st; lia |].
    apply Forall_app; split; [exact Hall|].
    constructor; [|constructor]. simpl. split.
    + subst st. do 2 f_equal. lia.
    + rewrite inject_Z_plus. ring.
Qed.

(** Where the windows of a plan start. *)
Lemma plan_starts (cfg : Config) (d : Q) (segments : list Segment) :
  calculate_all_clip_segments cfg d = Some segments ->
  Forall (fun s => start_time s
                   = inject_Z (step_size cfg * (clip_number s - 1))
                   /\ (duration s == end_time s - start_time s)%Q) segments.
Proof.
  intros Heq.
  apply (segments_loop_starts cfg d _ 0 0 [] segments) in Heq;
    [exact Heq | lia | constructor].
Qed.

(** X4.  Whatever the configuration, the window numbered [n] starts at
    [(n - 1) * (CLIP_DURATION - OVERLAP_DURATION)], so consecutive windows
    start one step apart, and every window's duration is its end time less
    its start time. *)
Theorem X4_windows_start_one_step_apart (cfg : Config) (d : Q) :
  exists segments,
    calculate_all_clip_segments cfg d = Some segments
    /\ Forall (fun s =>
                 start_time s
                 = inject_Z ((clip_number s - 1)
                             * (CLIP_DURATION cfg - OVERLAP_DURATION cfg))
                 /\ (duration s == end_time s - start_time s)%Q) segments.
Proof.
  destruct (calculate_all_clip_segments_ok cfg d) as (segments & Heq & _).
  exists segments. split; [exact Heq|].
  eapply Forall_impl; [|apply (plan_starts cfg d segments Heq)]. simpl.
  intros s [Hs Hd]. split; [|exact Hd].
  rewrite Hs. unfold step_size. f_equal. lia.
Qed.

Lemma segments_loop_final_last (cfg : Config) (d : Q) :
  forall (fuel : nat) (st c : Z) (segments out : list Segment),
    Forall (fun s => is_final_clip s = false) segments ->
    segments_loop cfg fuel d st c segments = Some out ->
    Forall (fun s => is_final_clip s = false) (removelast out).
Proof.
  assert (Hrm : forall l : list Segment,
             Forall (fun s => is_final_clip s = false) l ->
             Forall (fun s => is_final_clip s = false) (removelast l)).
  { induction l as [|a [|b l] IH]; intros H; simpl; try constructor.
    - now inversion H.
    - apply IH. now inversion H. }
  induction fuel as [|fuel IH]; intros st c segments out Hall Hout;
    apply segments_loop_cases in Hout;
    destruct Hout as [[_ ->] | [(_ & _ & _ & Hfin) | (_ & _ & _ & Hrec)]];
    try (now apply Hrm).
  1, 3:
    (destruct Hfin as [[_ ->] | [_ ->]]; [|now apply Hrm];
     rewrite removelast_last; exact Hall).
  - destruct Hrec as (fuel' & [=] & _).
  - destruct Hrec as (fuel' & [= <-] & Hrec).
    apply IH in Hrec; [exact Hrec|].
    apply Forall_app; split; [exact Hall|]. now repeat constructor.
Qed.

(** X5.  Whatever the configuration, only the last window of a plan can be
    marked final: every window before the last has [is_final_clip] false. *)
Theorem X5_only_the_last_window_is_final (cfg : Config) (d : Q) :
  exists segments,
    calculate_all_clip_segments cfg d = Some segments
    /\ Forall (fun s => is_final_clip s = false) (removelast segments).
Proof.
  destruct (calculate_all_clip_segments_ok cfg d) as (segments & Heq & _).
  exists segments. split; [exact Heq|].
  unfold calculate_all_clip_segments in Heq.
  eapply segments_loop_final_last; [|exact Heq]. constructor.
Qed.

Lemma covered_app (t : Q) (segments : list Segment) (s : Segment) :
  covered t segments \/ ((start_time s <= t)%Q /\ (t < end_time s)%Q) ->
  covered t (segments ++ [s]).
Proof.
  unfold covered. intros H. apply Exists_app.
  destruct H as [H | H]; [left; exact H | right; now constructor].
Qed.

Lemma segments_loop_covers (d : Q) :
  (25 <= d)%Q -> (d <= 2525)%Q ->
  forall (fuel : nat) (st c : Z) (segments out : list Segment),
    st = 25 * c -> 0 <= c ->
    c = 0 \/ ((25 * inject_Z c + 5 <= d)%Q
              /\ forall t, (0 <= t)%Q -> (t < 25 * inject_Z c + 5)%Q ->
                           covered t segments) ->
    segments_loop default_Config fuel d st c segments = Some out ->
    forall t, (0 <= t)%Q -> (t < d - 20)%Q -> covered t out.
Proof.
  intros Hlo Hhi.
  induction fuel as [|fuel IH]; intros st c segments out Hst Hc Hinv Hout;
    apply segments_loop_cases in Hout; subst st;
    rewrite inject_Z_mult in Hout;
    change (inject_Z 25) with 25%Q in Hout;
    change (inject_Z (CLIP_DURATION default_Config)) with 30%Q in Hout;
    change (inject_Z (MIN_CLIP_DURATION default_Config)) with 25%Q in Hout;
    change (MAX_CLIPS_PER_VIDEO default_Config) with 100 in Hout;
    assert (Hpos : c <> 0 -> (1 <= inject_Z c)%Q)
      by (intros Hne; change 1%Q with (inject_Z 1); rewrite <- Zle_Qle; lia);
    assert (Hnn : (0 <= inject_Z c)%Q)
      by (change 0%Q with (inject_Z 0); rewrite <- Zle_Qle; lia);
    destruct Hout as [[Hg ->] | [(Hs & Hm & He & Hfin) | (Hs & Hm & He & Hrec)]].
  1, 4:
    (intros t Ht0 Ht;
     destruct Hinv as [H0 | [Hd Hcov]];
     [ exfalso; rewrite H0 in *; change (inject_Z 0) with 0%Q in *;
       apply Hg; split; [lra | lia]
     | apply Hcov; [exact Ht0|];
       assert (Hc100 : (100 <= inject_Z c)%Q)
         by (change 100%Q with (inject_Z 100); rewrite <- Zle_Qle;
             destruct (Z_lt_le_dec c 100) as [Hlt|Hge]; [|exact Hge];
             exfalso; apply Hg; split; [lra | exact Hlt]);
       lra ]).
  1, 3:
    (intros t Ht0 Ht;
     destruct Hfin as [[Hmin ->] | [Hmin ->]];
     [ apply covered_app; cbn [start_time end_time];
       destruct (Qlt_le_dec t (25 * inject_Z c)) as [Hlt | Hge];
       [ left; destruct Hinv as [H0 | [Hd Hcov]];
         [ exfalso; rewrite H0 in *; change (inject_Z 0) with 0%Q in *; lra
         | apply Hcov; [exact Ht0 | lra] ]
       | right; split; [exact Hge | lra] ]
     | destruct Hinv as [H0 | [Hd Hcov]];
       [ exfalso; rewrite H0 in *; change (inject_Z 0) with 0%Q in *; lra
       | apply Hcov; [exact Ht0 | lra] ] ]).
  - destruct Hrec as (fuel' & [=] & _).
  - destruct Hrec as (fuel' & [= <-] & Hrec).
    refine (IH _ (c + 1) _ _ _ _ _ Hrec); [ | lia | ].
    + change (step_size default_Config) with 25. lia.
    + right. rewrite inject_Z_plus. change (inject_Z 1) with 1%Q.
      split; [lra|]. intros t Ht0 Ht.
      apply covered_app; cbn [start_time end_time].
      destruct (Qlt_le_dec t (25 * inject_Z c)) as [Hlt | Hge].
      * left. destruct Hinv as [H0 | [Hd Hcov]].
        -- exfalso. rewrite H0 in *. change (inject_Z 0) with 0%Q in *. lra.
        -- apply Hcov; [exact Ht0 | lra].
      * right. rewrite inject_Z_plus, inject_Z_mult.
        change (inject_Z 25) with 25%Q.
        change (inject_Z (CLIP_DURATION default_Config)) with 30%Q.
        split; [exact Hge | lra].
Qed.

(** X6.  For a video of 25 to 2525 seconds the configured plan leaves no
    gap: every instant from 0 up to 20 seconds before the end of the video
    lies inside some window. *)
Theorem X6_plan_covers_all_but_the_last_20_seconds (d : Q) :
  (25 <= d)%Q -> (d <= 2525)%Q ->
  exists segments,
    calculate_all_clip_segments default_Config d = Some segments
    /\ forall t, (0 <= t)%Q -> (t < d - 20)%Q -> covered t segments.
Proof.
  intros Hlo Hhi.
  destruct (calculate_all_clip_segments_ok default_Config d)
    as (segments & Heq & _).
  exists segments. split; [exact Heq|].
  unfold calculate_all_clip_segments in Heq.
  eapply (segments_loop_covers d Hlo Hhi _ 0 0);
    [reflexivity | lia | now left | exact Heq].
Qed.

Lemma X6_witness :
  (25 <= 100)%Q /\ (100 <= 2525)%Q /\
  exists segments,
    calculate_all_clip_segments default_Config 100 = Some segments
    /\ forall t, (0 <= t)%Q -> (t < 100 - 20)%Q -> covered t segments.
Proof.
  split; [discriminate|]. split; [discriminate|].
  apply (X6_plan_covers_all_but_the_last_20_seconds 100); discriminate.
Defined.

(** The bound of 20 seconds is reached: of a 49.9 second video the plan
    keeps the window [0, 30) only. *)
Example plan_49_9 :
  calculate_all_clip_segments default_Config (499 # 10)
  = Some [mkSegment 0 30 30 1 false].
Proof. reflexivity. Qed.

(** ** File names *)

Section StripFacts.

Variable chars : list N.

Lemma lstrip_Forall (P : N -> Prop) (l : list N) :
  Forall P l -> Forall P (lstrip chars l).
Proof.
  induction 1 as [|c l Hc Hl IH]; simpl; [constructor|].
  destruct (is_in c chars); [exact IH | now constructor].
Qed.

Lemma lstrip_length (l : list N) :
  (List.length (lstrip chars l) <= List.length l)%nat.
Proof.
  induction l as [|c l IH]; simpl; [lia|].
  destruct (is_in c chars); simpl; lia.
Qed.

Lemma lstrip_hd (l : list N) (c : N) :
  hd_error (lstrip chars l) = Some c -> is_in c chars = false.
Proof.
  induction l as [|a l IH]; simpl; [discriminate|].
  destruct (is_in a chars) eqn:Ha; [exact IH|].
  simpl. now intros [= <-].
Qed.

Lemma lstrip_fix (l : list N) :
  (forall c, hd_error l = Some c -> is_in c chars = false) ->
  lstrip chars l = l.
Proof.
  destruct l as [|a l]; simpl; [reflexivity|].
  intros H. now rewrite (H a eq_refl).
Qed.

Lemma lstrip_lstrip (l : list N) :
  lstrip chars (lstrip chars l) = lstrip chars l.
Proof. apply lstrip_fix, lstrip_hd. Qed.

Lemma lstrip_snoc (l : list N) (h : N) :
  is_in h chars = false -> lstrip chars (l ++ [h]) = lstrip chars l ++ [h].
Proof.
  intros Hh. induction l as [|a l IH]; simpl.
  - now rewrite Hh.
  - destruct (is_in a chars); [exact IH | reflexivity].
Qed.

Lemma strip_Forall (P : N -> Prop) (l : list N) :
  Forall P l -> Forall P (strip chars l).
Proof.
  intros H. unfold strip.
  apply Forall_rev, lstrip_Forall, Forall_rev, lstrip_Forall, H.
Qed.

Lemma strip_length (l : list N) :
  (List.length (strip chars l) <= List.length l)%nat.
Proof.
  unfold strip. rewrite length_rev.
  etransitivity; [apply lstrip_length|]. rewrite length_rev.
  apply lstrip_length.
Qed.

(** What [strip] returns: nothing, or a list that starts with the first
    character kept and whose reverse is itself stripped on the left. *)
Lemma strip_shape (l : list N) :
  strip chars l = []
  \/ exists h t, is_in h chars = false
                 /\ strip chars l = h :: rev (lstrip chars (rev t))
                 /\ lstrip chars l = h :: t.
Proof.
  unfold strip. destruct (lstrip chars l) as [|h t] eqn:Hl.
  - left. reflexivity.
  - right. exists h, t.
    assert (Hh : is_in h chars = false)
      by (apply (lstrip_hd l); now rewrite Hl).
    split; [exact Hh|]. split; [|reflexivity].
    simpl rev. rewrite (lstrip_snoc _ _ Hh), rev_app_distr. reflexivity.
Qed.

Lemma strip_hd (l : list N) (c : N) :
  hd_error (strip chars l) = Some c -> is_in c chars = false.
Proof.
  destruct (strip_shape l) as [-> | (h & t & Hh & -> & _)];
    [discriminate|]. simpl. now intros [= <-].
Qed.

Lemma strip_last (l : list N) (c : N) :
  hd_error (rev (strip chars l)) = Some c -> is_in c chars = false.
Proof.
  unfold strip. rewrite rev_involutive. apply lstrip_hd.
Qed.

Lemma strip_strip (l : list N) :
  strip chars (strip chars l) = strip chars l.
Proof.
  destruct (strip_shape l) as [-> | (h & t & Hh & -> & _)];
    [reflexivity|].
  unfold strip at 1. simpl lstrip. rewrite Hh.
  simpl rev. rewrite rev_involutive.
  rewrite (lstrip_snoc _ _ Hh), lstrip_lstrip, rev_app_distr.
  reflexivity.
Qed.

End StripFacts.

Lemma Forall_firstn {A : Type} (P : A -> Prop) (n : nat) (l : list A) :
  Forall P l -> Forall P (firstn n l).
Proof.
  intros H. revert n. induction H as [|a l Ha Hl IH]; intros [|n]; simpl;
    constructor; auto.
Qed.

Lemma replaced_not_invalid (l : list N) :
  Forall (fun c => is_in c invalid_chars = false)
    (map (fun c => if is_in c invalid_chars then 95%N else c) l).
Proof.
  apply Forall_map, Forall_forall. intros c _.
  destruct (is_in c invalid_chars) eqn:Hc; [reflexivity | exact Hc].
Qed.

Lemma replaced_from (l : list N) :
  Forall (fun c => In c l \/ c = 95%N)
    (map (fun c => if is_in c invalid_chars then 95%N else c) l).
Proof.
  apply Forall_map, Forall_forall. intros c Hc.
  destruct (is_in c invalid_chars); [right; reflexivity | left; exact Hc].
Qed.

Lemma truncated_length {A : Type} (l : list A) :
  (List.length (if (100 <? List.length l)%nat then firstn 100 l else l)
   <= 100)%nat.
Proof.
  destruct (100 <? List.length l)%nat eqn:H.
  - rewrite length_firstn. lia.
  - apply Nat.ltb_ge in H. exact H.
Qed.

Lemma truncated_Forall {A : Type} (P : A -> Prop) (l : list A) :
  Forall P l ->
  Forall P (if (100 <? List.length l)%nat then firstn 100 l else l).
Proof.
  intros H. destruct (100 <? List.length l)%nat;
    [apply Forall_firstn|]; exact H.
Qed.

Lemma is_in_In (c : N) (l : list N) : is_in c l = false -> ~ In c l.
Proof.
  intros Hc Hin. unfold is_in in Hc.
  assert (existsb (N.eqb c) l = true).
  { apply existsb_exists. exists c. split; [exact Hin | apply N.eqb_refl]. }
  congruence.
Qed.

Lemma sanitized_from (filename : list N) :
  Forall (fun c => In c filename \/ c = 95%N) (_sanitize_filename filename).
Proof. apply strip_Forall, truncated_Forall, replaced_from. Qed.

(** X7.  The name [_sanitize_filename] returns for a string of any code
    points holds none of the nine characters of [invalid_chars], has at
    most 100 code points, neither starts nor ends with a dot or a space,
    and holds only code points of the string it was given and
    underscores. *)
Theorem X7_sanitized_filename_is_safe (filename : list N) :
  let r := _sanitize_filename filename in
  Forall (fun c => ~ In c invalid_chars) r
  /\ (List.length r <= 100)%nat
  /\ (List.length r <= List.length filename)%nat
  /\ (forall c, hd_error r = Some c -> c <> 46%N /\ c <> 32%N)
  /\ (forall c, hd_error (rev r) = Some c -> c <> 46%N /\ c <> 32%N)
  /\ Forall (fun c => In c filename \/ c = 95%N) r.
Proof.
  unfold _sanitize_filename. cbv zeta.
  set (l := map _ filename).
  set (m := if (100 <? List.length l)%nat then firstn 100 l else l).
  assert (Hm : Forall (fun c => is_in c invalid_chars = false) m)
    by apply truncated_Forall, replaced_not_invalid.
  assert (Hnot : forall c, is_in c [46; 32]%N = false ->
                           c <> 46%N /\ c <> 32%N).
  { intros c Hc. split; intros ->; discriminate Hc. }
  split; [|split; [|split; [|split; [|split]]]].
  - eapply Forall_impl; [|apply strip_Forall, Hm].
    intros c Hc. apply is_in_In, Hc.
  - etransitivity; [apply strip_length | apply truncated_length].
  - etransitivity; [apply strip_length|]. unfold m.
    replace (List.length filename) with (List.length l)
      by apply length_map.
    destruct (100 <? List.length l)%nat; [|lia].
    rewrite length_firstn. lia.
  - intros c Hc. apply Hnot. eapply strip_hd, Hc.
  - intros c Hc. apply Hnot. eapply strip_last, Hc.
  - apply sanitized_from.
Qed.

(** X8.  Sanitizing a sanitized name changes nothing, whatever the code
    points of the name. *)
Theorem X8_sanitize_filename_idempotent (filename : list N) :
  _sanitize_filename (_sanitize_filename filename)
  = _sanitize_filename filename.
Proof.
  unfold _sanitize_filename at 1. cbv zeta.
  remember (_sanitize_filename filename) as r eqn:Hr.
  assert (Hsafe : Forall (fun c => is_in c invalid_chars = false) r
                  /\ (List.length r <= 100)%nat
                  /\ strip [46; 32]%N r = r).
  { subst r. unfold _sanitize_filename. cbv zeta.
    set (l := map _ filename).
    split; [|split].
    - apply strip_Forall, truncated_Forall, replaced_not_invalid.
    - etransitivity; [apply strip_length | apply truncated_length].
    - apply strip_strip. }
  destruct Hsafe as (Hinv & Hlen & Hstrip).
  assert (Hmap : map (fun c => if is_in c invalid_chars then 95%N else c) r
                 = r).
  { clear Hr Hlen Hstrip. induction Hinv as [|c r Hc _ IH]; cbn [map];
      [reflexivity|]. now rewrite Hc, IH. }
  rewrite Hmap.
  assert (Hlt : (100 <? List.length r)%nat = false)
    by (apply Nat.ltb_ge; exact Hlen).
  rewrite Hlt. exact Hstrip.
Qed.

Example sanitize_title :
  _sanitize_filename (code_points " What? A/B: test.. ")
  = code_points "What_ A_B_ test".
Proof. reflexivity. Qed.

Example sanitize_dots : _sanitize_filename (code_points ". . .") = [].
Proof. reflexivity. Qed.

(** A title of 101 code points above the 8-bit range loses one of them,
    not three quarters of its bytes. *)
Example sanitize_long_title :
  _sanitize_filename (repeat 128512%N 101) = repeat 128512%N 100.
Proof. reflexivity. Qed.

(** On a title of the model the code points of the clean title are the
    result of [_sanitize_filename]: nothing is lost on the way back to a
    [string]. *)
Lemma clean_title_code_points (title : string) :
  code_points (str_of_code_points (_sanitize_filename (code_points title)))
  = _sanitize_filename (code_points title).
Proof.
  unfold code_points at 1, str_of_code_points.
  rewrite list_ascii_of_string_of_list_ascii, map_map.
  assert (H : Forall (fun c => (c < 256)%N)
                (_sanitize_filename (code_points title))).
  { eapply Forall_impl; [|apply sanitized_from].
    intros c [Hc| ->]; [|reflexivity].
    unfold code_points in Hc. apply in_map_iff in Hc.
    destruct Hc as (a & <- & _). apply N_ascii_bounded. }
  induction H as [|c l Hc _ IH]; [reflexivity|].
  cbn [map]. rewrite IH, N_ascii_embedding by exact Hc. reflexivity.
Qed.

(** ** What the batch creates *)

Section BatchClips.

Variable cfg : Config.
Variable subprocess_run : nat -> list Arg -> RunResult.
Variables video_path clean_title : string.
Variable progress_callback : option callback_type.
Variable total : nat.

Lemma clips_loop_Forall (P : Clip -> Prop) :
  (forall i segment file_size,
      subprocess_run i
        (ffmpeg_cmd cfg video_path segment
           (os_path_join (OUTPUT_DIR cfg)
              (output_filename_of clean_title segment)))
      = Completed 0 true file_size ->
      500000 < file_size ->
      P (mkClip (os_path_join (OUTPUT_DIR cfg)
                   (output_filename_of clean_title segment))
                (clip_number segment) (start_time segment)
                (end_time segment) (duration segment)
                (output_filename_of clean_title segment)
                (inject_Z file_size / inject_Z (1024 * 1024))%Q)) ->
  forall (rest : list Segment) (i : nat) (created : list Clip)
         (s : ProgressState),
    Forall P created ->
    Forall P (fst (clips_loop cfg subprocess_run video_path clean_title
                     progress_callback total i rest created s)).
Proof.
  intros HP.
  induction rest as [|segment rest IH]; intros i created s Hall;
    [exact Hall|].
  cbn [clips_loop]. cbv zeta. refine (IH (S i) _ _ _).
  destruct (_create_30sec_clip cfg (subprocess_run i) video_path segment _)
    eqn:Hok; [|exact Hall].
  apply _create_30sec_clip_true in Hok. destruct Hok as (fs & Hrun & Hfs).
  apply Forall_app; split; [exact Hall|].
  constructor; [|constructor]. rewrite Hrun. simpl getsize.
  exact (HP i _ _ Hrun Hfs).
Qed.

Lemma successful_Forall (P : Segment -> Prop) (rest : list Segment) :
  forall i, Forall P rest ->
            Forall P (successful cfg subprocess_run video_path clean_title
                        i rest).
Proof.
  induction rest as [|segment rest IH]; intros i Hall; [constructor|].
  inversion Hall as [|? ? Hs Hr]; subst. cbn [successful].
  destruct (succeeds _ _ _ _ _ _); [constructor; [exact Hs|]|]; now apply IH.
Qed.

Lemma successful_sorted {A : Type} (R : A -> A -> Prop) (f : Segment -> A)
    (rest : list Segment) :
  forall i, StronglySorted R (map f rest) ->
            StronglySorted R
              (map f (successful cfg subprocess_run video_path clean_title
                        i rest)).
Proof.
  induction rest as [|segment rest IH]; intros i Hs; [constructor|].
  simpl in Hs. apply StronglySorted_inv in Hs. destruct Hs as [Hs Hall].
  cbn [successful]. destruct (succeeds _ _ _ _ _ _); [|now apply IH].
  simpl. constructor; [now apply IH|].
  apply Forall_map. apply successful_Forall.
  rewrite Forall_map in Hall. exact Hall.
Qed.

Lemma successful_length (rest : list Segment) :
  forall i,
    (List.length (successful cfg subprocess_run video_path clean_title i rest)
     <= List.length rest)%nat.
Proof.
  induction rest as [|segment rest IH]; intros i; [apply Nat.le_refl|].
  cbn [successful]. specialize (IH (S i)).
  destruct (succeeds _ _ _ _ _ _); simpl; lia.
Qed.

End BatchClips.

(** Every clip of the batch is the record of a window at its place in the
    plan, with the size the world reported for that window's command. *)
Lemma clips_loop_origin (cfg : Config)
    (subprocess_run : nat -> list Arg -> RunResult)
    (video_path clean_title : string)
    (progress_callback : option callback_type) (total : nat)
    (P : Clip -> Prop) (at_index : nat -> Segment -> Prop) :
  (forall i segment file_size,
      at_index i segment ->
      subprocess_run i
        (ffmpeg_cmd cfg video_path segment
           (os_path_join (OUTPUT_DIR cfg)
              (output_filename_of clean_title segment)))
      = Completed 0 true file_size ->
      500000 < file_size ->
      P (mkClip (os_path_join (OUTPUT_DIR cfg)
                   (output_filename_of clean_title segment))
                (clip_number segment) (start_time segment)
                (end_time segment) (duration segment)
                (output_filename_of clean_title segment)
                (inject_Z file_size / inject_Z (1024 * 1024))%Q)) ->
  forall (rest : list Segment) (i : nat) (created : list Clip)
         (s : ProgressState),
    (forall k segment,
        nth_error rest k = Some segment -> at_index (i + k)%nat segment) ->
    Forall P created ->
    Forall P (fst (clips_loop cfg subprocess_run video_path clean_title
                     progress_callback total i rest created s)).
Proof.
  intros HP.
  induction rest as [|segment rest IH]; intros i created s Hat Hall;
    [exact Hall|].
  cbn [clips_loop]. cbv zeta. refine (IH (S i) _ _ _ _).
  - intros k seg Hk. replace (S i + k)%nat with (i + S k)%nat by lia.
    apply Hat. exact Hk.
  - destruct (_create_30sec_clip cfg (subprocess_run i) video_path segment _)
      eqn:Hok; [|exact Hall].
    apply _create_30sec_clip_true in Hok. destruct Hok as (fs & Hrun & Hfs).
    apply Forall_app; split; [exact Hall|].
    constructor; [|constructor]. rewrite Hrun. simpl getsize.
    refine (HP i _ _ _ Hrun Hfs).
    specialize (Hat 0%nat segment eq_refl).
    now rewrite Nat.add_0_r in Hat.
Qed.

(** X9.  Every clip the batch returns is the record of one window of the
    plan whose encode the world answered with return code 0, an existing
    output file and a size of more than 500000 bytes: the clip carries
    that window's number and times, its path is its file name inside
    [OUTPUT_DIR], and its [size_mb] is that reported size over
    1024 * 1024, hence above 500000/1048576. *)
Theorem X9_created_clips_are_large_enough
    (cfg : Config) (subprocess_run : nat -> list Arg -> RunResult)
    (video_path clean_title : string)
    (progress_callback : option callback_type)
    (segments : list Segment) (s : ProgressState) :
  Forall (fun c =>
            (exists i segment file_size,
                nth_error segments i = Some segment
                /\ subprocess_run i
                     (ffmpeg_cmd cfg video_path segment (c_path c))
                   = Completed 0 true file_size
                /\ 500000 < file_size
                /\ c_size_mb c = (inject_Z file_size / inject_Z 1048576)%Q
                /\ window_of_clip c = window_of_segment segment
                /\ c_filename c = output_filename_of clean_title segment)
            /\ (500000 # 1048576 < c_size_mb c)%Q
            /\ c_path c = os_path_join (OUTPUT_DIR cfg) (c_filename c))
    (fst (clips_loop cfg subprocess_run video_path clean_title
            progress_callback (List.length segments) 0 segments [] s)).
Proof.
  apply (clips_loop_origin cfg subprocess_run video_path clean_title
           progress_callback (List.length segments) _
           (fun i segment => nth_error segments i = Some segment));
    [| intros k segment Hk; exact Hk | constructor].
  intros i segment fs Hat Hrun Hfs. cbn [c_path c_size_mb c_filename].
  split; [|split; [|reflexivity]].
  - exists i, segment, fs. repeat split; assumption.
  - change (inject_Z (1024 * 1024)) with (inject_Z 1048576).
    unfold Qlt, Qdiv, Qmult, Qinv, inject_Z. simpl. lia.
Qed.

(** In the world whose second encode leaves no file, the three clips carry
    the size that world reports, 2097152 bytes, that is 2 MB. *)
Example sizes_of_batch_with_one_missing_file :
  map c_size_mb
    (fst (clips_loop default_Config (w_run one_missing_World)
            "downloads/v.mp4" "t" None 4 0
            [mkSegment 0 30 30 1 false; mkSegment 25 55 30 2 false;
             mkSegment 50 80 30 3 false; mkSegment 75 100 25 4 true]
            [] progress_state_init))
  = [(2097152 / 1048576)%Q; (2097152 / 1048576)%Q; (2097152 / 1048576)%Q].
Proof. reflexivity. Qed.

Lemma seq_sorted (n a : nat) :
  StronglySorted Z.lt (map Z.of_nat (seq a n)).
Proof.
  revert a. induction n as [|n IH]; intros a; simpl; constructor.
  - apply IH.
  - apply Forall_map, Forall_forall. intros x Hx.
    apply in_seq in Hx. lia.
Qed.

(** X10.  In every world [create_all_30sec_clips], as configured, returns
    at most 100 clips; their clip numbers increase strictly (no window
    appears twice), every clip lasts between 25 and 30 seconds with
    [duration = end_time - start_time], and no clip ends after the
    duration read from the video file.  If that duration cannot be read
    the result is empty and the progress record is left as it was. *)
Theorem X10_batch_result_is_a_subplan
    (probe : string -> Result Q)
    (subprocess_run : nat -> list Arg -> RunResult)
    (video_path title : string) (progress_callback : option callback_type)
    (s : ProgressState) :
  exists created_clips s',
    create_all_30sec_clips default_Config probe subprocess_run video_path
      title progress_callback s = Some (created_clips, s')
    /\ (List.length created_clips <= 100)%nat
    /\ StronglySorted Z.lt (map c_clip_number created_clips)
    /\ Forall (fun c =>
                 (25 <= c_duration c)%Q /\ (c_duration c <= 30)%Q
                 /\ (c_duration c == c_end_time c - c_start_time c)%Q
                 /\ forall d, probe video_path = Ok d ->
                              (c_end_time c <= d)%Q) created_clips
    /\ (forall e, probe video_path = Raise e ->
                  created_clips = [] /\ s' = s).
Proof.
  unfold create_all_30sec_clips.
  destruct (probe video_path) as [d|e].
  2:{ exists [], s. repeat split; try constructor; simpl; lia. }
  destruct (calculate_all_clip_segments_ok default_Config d)
    as (segments & Heq & [Hb Hn Hs]).
  pose proof (plan_starts default_Config d segments Heq) as Hst.
  rewrite Heq.
  destruct segments as [|s0 segments0] eqn:Hsegs.
  { exists [], s. repeat split; try constructor; try discriminate.
    simpl; lia. }
  rewrite <- Hsegs in *. clear Hsegs s0 segments0.
  set (r := clips_loop _ _ _ _ _ _ _ _ _ _).
  exists (fst r), (snd r). split; [now destruct r|].
  pose proof (clips_loop_windows default_Config subprocess_run video_path
                (str_of_code_points (_sanitize_filename (code_points title))) progress_callback
                (List.length segments) segments 0 [] s) as Hw.
  fold r in Hw. simpl in Hw.
  set (good := successful default_Config subprocess_run video_path
                 (str_of_code_points (_sanitize_filename (code_points title))) 0 segments) in *.
  split; [|split; [|split; [|discriminate]]].
  - rewrite <- (length_map window_of_clip), Hw, length_map.
    pose proof (successful_length default_Config subprocess_run video_path
                  (str_of_code_points (_sanitize_filename (code_points title))) segments 0) as Hl.
    fold good in Hl. simpl in Hb. lia.
  - assert (Hnum : map c_clip_number (fst r) = map clip_number good).
    { transitivity (map (fun w : Z * Q * Q * Q => fst (fst (fst w)))
                        (map window_of_clip (fst r))).
      - rewrite map_map. reflexivity.
      - rewrite Hw, map_map. reflexivity. }
    rewrite Hnum. apply successful_sorted.
    rewrite Hn. apply seq_sorted.
  - assert (Hgood : Forall (fun c : Z * Q * Q * Q =>
               let '(_, st, en, du) := c in
               (25 <= du)%Q /\ (du <= 30)%Q /\ (du == en - st)%Q
               /\ forall d', Ok d = Ok d' -> (en <= d')%Q)
             (map window_of_segment good)).
    { apply Forall_map. apply successful_Forall.
      apply Forall_forall. intros seg Hin.
      rewrite Forall_forall in Hs, Hst.
      destruct (Hs seg Hin) as [Hend Hk]. destruct (Hst seg Hin) as [_ Hdu].
      unfold window_of_segment.
      assert (Hd : (25 <= duration seg)%Q /\ (duration seg <= 30)%Q).
      { destruct (is_final_clip seg).
        - destruct Hk as (_ & _ & Hmin & Hmax). split; [exact Hmin|].
          apply Qlt_le_weak. exact Hmax.
        - destruct Hk as [-> _]. split; discriminate. }
      destruct Hd as [Hd1 Hd2].
      repeat split; try assumption. now intros d' [= <-]. }
    rewrite <- Hw in Hgood. rewrite Forall_map in Hgood.
    eapply Forall_impl; [|exact Hgood]. intros c. unfold window_of_clip.
    tauto.
Qed.

(** ** The progress the batch publishes *)

Lemma batch_percent_range (i total : nat) :
  (i < total)%nat ->
  40 <= 40 + int_of_Q (inject_Z (Z.of_nat i) / inject_Z (Z.of_nat total) * 50)
     < 90.
Proof.
  intros Hlt.
  set (x := (inject_Z (Z.of_nat i) / inject_Z (Z.of_nat total))%Q).
  assert (Ht : (0 < inject_Z (Z.of_nat total))%Q)
    by (change 0%Q with (inject_Z 0); rewrite <- Zlt_Qlt; lia).
  assert (H0 : (0 <= x)%Q).
  { apply Qle_shift_div_l; [exact Ht|]. rewrite Qmult_0_l.
    change 0%Q with (inject_Z 0). rewrite <- Zle_Qle. lia. }
  assert (H1 : (x < 1)%Q).
  { apply Qlt_shift_div_r; [exact Ht|]. rewrite Qmult_1_l.
    rewrite <- Zlt_Qlt. lia. }
  rewrite int_of_Q_nonneg by lra.
  assert (0 <= Qfloor (x * 50)).
  { rewrite <- (Qfloor_Z 0). apply Qfloor_resp_le.
    change (inject_Z 0) with 0%Q. lra. }
  assert (Qfloor (x * 50) < 50).
  { rewrite Zlt_Qlt. apply Qle_lt_trans with (x * 50)%Q;
      [apply Qfloor_le|]. change (inject_Z 50) with 50%Q. lra. }
  lia.
Qed.

Lemma clips_loop_state (cfg : Config)
    (subprocess_run : nat -> list Arg -> RunResult)
    (video_path clean_title : string) (total : nat) :
  forall (rest : list Segment) (i : nat) (created : list Clip)
         (s : ProgressState),
    rest <> [] ->
    let j := (i + List.length rest - 1)%nat in
    snd (clips_loop cfg subprocess_run video_path clean_title
           (Some update_progress) total i rest created s)
    = mkProgress "processing"
        [ Lit "Generating clip "; Num (inject_Z (Z.of_nat j + 1));
          Lit "/"; Num (inject_Z (Z.of_nat total)); Lit "..." ]
        (40 + int_of_Q (inject_Z (Z.of_nat j)
                        / inject_Z (Z.of_nat total) * 50))
        (Z.of_nat total) (Z.of_nat j + 1) None.
Proof.
  induction rest as [|segment rest IH]; intros i created s Hne;
    [contradiction|].
  cbn [clips_loop]. cbv zeta.
  destruct rest as [|segment' rest].
  - cbn [clips_loop snd List.length].
    replace (i + 1 - 1)%nat with i by lia. reflexivity.
  - rewrite IH by discriminate.
    replace (S i + List.length (segment' :: rest) - 1)%nat
      with (i + List.length (segment :: segment' :: rest) - 1)%nat
      by (simpl; lia).
    reflexivity.
Qed.

(** X11.  After a batch over a non-empty plan of N windows that reports to
    [update_progress], the progress record is that of the last window:
    status ['processing'], message 'Generating clip N/N...', N total and N
    current clips, no error, and the percentage
    [40 + int((N - 1) / N * 50)], which lies from 40 up to 89. *)
Theorem X11_progress_after_the_batch
    (cfg : Config) (subprocess_run : nat -> list Arg -> RunResult)
    (video_path clean_title : string)
    (segments : list Segment) (s : ProgressState) :
  segments <> [] ->
  let N := Z.of_nat (List.length segments) in
  let s' := snd (clips_loop cfg subprocess_run video_path clean_title
                   (Some update_progress) (List.length segments) 0
                   segments [] s) in
  s' = mkProgress "processing"
         [ Lit "Generating clip "; Num (inject_Z N); Lit "/";
           Num (inject_Z N); Lit "..." ]
         (40 + int_of_Q (inject_Z (N - 1) / inject_Z N * 50)) N N None
  /\ 40 <= progress s' < 90.
Proof.
  intros Hne N s'.
  assert (Hlen : (0 < List.length segments)%nat)
    by (destruct segments; [contradiction | simpl; lia]).
  assert (Hs : s' = mkProgress "processing"
         [ Lit "Generating clip "; Num (inject_Z N); Lit "/";
           Num (inject_Z N); Lit "..." ]
         (40 + int_of_Q (inject_Z (N - 1) / inject_Z N * 50)) N N None).
  { unfold s'. rewrite clips_loop_state by exact Hne. cbv zeta.
    replace (Z.of_nat (0 + List.length segments - 1) + 1) with N
      by (unfold N; lia).
    replace (Z.of_nat (0 + List.length segments - 1)) with (N - 1)
      by (unfold N; lia).
    reflexivity. }
  split; [exact Hs|]. rewrite Hs. cbn [progress].
  replace (N - 1) with (Z.of_nat (List.length segments - 1))
    by (unfold N; lia).
  apply batch_percent_range. lia.
Qed.

Lemma X11_witness :
  [mkSegment 0 30 30 1 false; mkSegment 25 55 30 2 false] <> [] /\
  40 <= progress
          (snd (clips_loop default_Config (w_run one_missing_World)
                  "downloads/v.mp4" "t" (Some update_progress) 2 0
                  [mkSegment 0 30 30 1 false; mkSegment 25 55 30 2 false]
                  [] progress_state_init)) < 90.
Proof.
  split; [discriminate|].
  exact (proj2 (X11_progress_after_the_batch default_Config
                  (w_run one_missing_World) "downloads/v.mp4" "t"
                  [mkSegment 0 30 30 1 false; mkSegment 25 55 30 2 false]
                  progress_state_init ltac:(discriminate))).
Defined.

(** ** The statistics of the report *)

Section Extremes.

(** [pick m y] is what the fold keeps of the running value [m] and the next
    element [y]; [le] orders the kept value before both. *)
Variable pick : Q -> Q -> Q.
Variable le : Q -> Q -> Prop.
Hypothesis le_refl : forall x, le x x.
Hypothesis le_trans : forall x y z, le x y -> le y z -> le x z.
Hypothesis pick_case : forall m y, pick m y = m \/ pick m y = y.
Hypothesis pick_le_l : forall m y, le (pick m y) m.
Hypothesis pick_le_r : forall m y, le (pick m y) y.

Lemma fold_pick (l : list Q) :
  forall m,
    let r := fold_left pick l m in
    (r = m \/ In r l) /\ le r m /\ Forall (le r) l.
Proof.
  induction l as [|y l IH]; intros m; simpl.
  - split; [now left|]. split; [apply le_refl | constructor].
  - destruct (IH (pick m y)) as (Hin & Hle & Hall).
    split; [|split].
    + destruct Hin as [-> | Hin]; [|now right; right].
      destruct (pick_case m y) as [-> | ->]; [now left | now right; left].
    + eapply le_trans; [exact Hle | apply pick_le_l].
    + constructor; [|exact Hall].
      eapply le_trans; [exact Hle | apply pick_le_r].
Qed.

End Extremes.

Lemma min_of_spec (x : Q) (l : list Q) :
  In (min_of (x :: l)) (x :: l)
  /\ Forall (fun y => (min_of (x :: l) <= y)%Q) (x :: l).
Proof.
  destruct (fold_pick (fun m y => if Qlt_bool y m then y else m) Qle
              Qle_refl Qle_trans) with (l := l) (m := x)
    as (Hin & Hle & Hall).
  - intros m y. destruct (Qlt_bool y m); [now right | now left].
  - intros m y. destruct (Qlt_bool y m) eqn:E; [|apply Qle_refl].
    apply Qlt_bool_iff in E. now apply Qlt_le_weak.
  - intros m y. destruct (Qlt_bool y m) eqn:E; [apply Qle_refl|].
    now apply Qlt_bool_false_iff in E.
  - simpl min_of. split.
    + destruct Hin as [-> | Hin]; [now left | now right].
    + constructor; assumption.
Qed.

Lemma max_of_spec (x : Q) (l : list Q) :
  In (max_of (x :: l)) (x :: l)
  /\ Forall (fun y => (y <= max_of (x :: l))%Q) (x :: l).
Proof.
  destruct (fold_pick (fun m y => if Qlt_bool m y then y else m)
              (fun a b => (b <= a)%Q)
              Qle_refl (fun a b c H1 H2 => Qle_trans _ _ _ H2 H1))
    with (l := l) (m := x) as (Hin & Hle & Hall).
  - intros m y. destruct (Qlt_bool m y); [now right | now left].
  - intros m y. destruct (Qlt_bool m y) eqn:E; [|apply Qle_refl].
    apply Qlt_bool_iff in E. now apply Qlt_le_weak.
  - intros m y. destruct (Qlt_bool m y) eqn:E; [apply Qle_refl|].
    now apply Qlt_bool_false_iff in E.
  - simpl max_of. split.
    + destruct Hin as [-> | Hin]; [now left | now right].
    + constructor; assumption.
Qed.

(** Every element lies between the two extremes. *)
Lemma extremes_bound (x : Q) (l : list Q) :
  Forall (fun y => (min_of (x :: l) <= y)%Q /\ (y <= max_of (x :: l))%Q)
         (x :: l).
Proof.
  destruct (min_of_spec x l) as [_ Hmin]. destruct (max_of_spec x l) as [_ Hmax].
  rewrite Forall_forall in *. intros y Hy. split; auto.
Qed.

(** X12.  In the report of a non-empty list of clips, [shortest_clip] and
    [longest_clip] are durations of clips of the list, and every clip's
    duration lies between them. *)
Theorem X12_shortest_and_longest_clip
    (created_clips : list Clip) (metadata : Metadata) (now : string) :
  created_clips <> [] ->
  exists r,
    build_report created_clips metadata now = Ok r
    /\ In (shortest_clip r) (map c_duration created_clips)
    /\ In (longest_clip r) (map c_duration created_clips)
    /\ Forall (fun c => (shortest_clip r <= c_duration c)%Q
                        /\ (c_duration c <= longest_clip r)%Q)
         created_clips.
Proof.
  intros Hne.
  destruct (build_report_nonempty created_clips metadata now Hne)
    as (r & _ & Hr & _ & _ & _ & _ & _ & Hmin & Hmax).
  exists r. split; [exact Hr|]. rewrite Hmin, Hmax.
  destruct created_clips as [|c l]; [contradiction|]. cbn [map].
  split; [apply min_of_spec|]. split; [apply max_of_spec|].
  pose proof (extremes_bound (c_duration c) (map c_duration l)) as Hb.
  change (c_duration c :: map c_duration l)
    with (map c_duration (c :: l)) in Hb.
  rewrite Forall_map in Hb. exact Hb.
Qed.

(** Of the four clips of the 100 second plan the shortest lasts 25 seconds
    and the longest 30. *)
Lemma X12_witness :
  sample_clips <> [] /\
  exists r,
    build_report sample_clips sample_metadata "now" = Ok r
    /\ shortest_clip r = 25%Q /\ longest_clip r = 30%Q
    /\ Forall (fun c => (shortest_clip r <= c_duration c)%Q
                        /\ (c_duration c <= longest_clip r)%Q)
         sample_clips.
Proof.
  split; [discriminate|].
  destruct (X12_shortest_and_longest_clip sample_clips sample_metadata "now")
    as (r & Hr & _ & _ & Hall); [discriminate|].
  exists r. split; [exact Hr|].
  assert (Hs : shortest_clip r = 25%Q /\ longest_clip r = 30%Q).
  { revert Hr. vm_compute. intros [= <-]. split; reflexivity. }
  split; [apply Hs|]. split; [apply Hs|exact Hall].
Defined.

(** ** How a run ends *)

(** How [generate_shorts] ends on a dictionary. *)
Lemma generate_shorts_outcomes
    (cfg : Config) (w : World) (data : Request) (s : ProgressState) :
  exists response s',
    generate_shorts cfg w data s = Some (response, s')
    /\ match response with
       | JsonError msg code =>
           (code = 400 /\ msg = "URL is required" /\ s' = s
            /\ (url data = None \/ url data = Some ""))
           \/ (code = 500 /\ status s' = "error" /\ error s' = Some msg
               /\ exists u, url data = Some u /\ u <> "")
       | JsonReport _ =>
           status s' = "complete" /\ progress s' = 100
           /\ total_clips s' = current_clip s' /\ error s' = None
           /\ exists u, url data = Some u /\ u <> ""
       end.
Proof.
  destruct (generate_shorts_returns cfg w data s) as ([response s'] & Hgs).
  exists response, s'. split; [exact Hgs|].
  revert Hgs. unfold generate_shorts.
  destruct (generate_shorts_body cfg w data s) as [[[resp|e] s1]|] eqn:Hb;
    [| |discriminate].
  2:{ intros [= <- <-]. right. unfold generate_shorts_body in Hb.
      destruct (url data) as [[|c u]|]; try discriminate.
      repeat split. exists (String c u). split; [reflexivity|discriminate]. }
  intros [= -> ->]. revert Hb. unfold generate_shorts_body.
  destruct (url data) as [[|c u]|];
    try (intros [= <- <-]; left; repeat split; auto).
  destruct (download_video w _ _) as [[[[vp t] md]|e] s2]; [|discriminate].
  destruct (create_all_30sec_clips _ _ _ _ _ _ _) as [[clips s3]|];
    [|discriminate].
  assert (Hurl : exists u0, Some (String c u) = Some u0 /\ u0 <> "")
    by (exists (String c u); split; [reflexivity|discriminate]).
  destruct (generate_comprehensive_report _ _ _ _ _) as [[p [r|]]|e];
    try discriminate.
  - intros [= <- <-]. repeat split. exact Hurl.
  - destruct (w_read_json w p); [|discriminate].
    intros [= <- <-]. repeat split. exact Hurl.
Qed.

Lemma url_truthy_data_of (u od : Field) :
  (url_truthy (BodyDict u od) = false
   <-> (url (data_of u od) = None \/ url (data_of u od) = Some ""))
  /\ (url_truthy (BodyDict u od) = true
      <-> exists v, url (data_of u od) = Some v /\ v <> "").
Proof.
  destruct u as [|v|[|]]; cbn [url_truthy data_of url]; split; split;
    try (intros [H|H]; discriminate H);
    try (intros (v0 & H & H'); discriminate H);
    try discriminate; try (intros _; now left); try reflexivity.
  - destruct v; [right; reflexivity | discriminate].
  - intros [H|[= ->]]; [discriminate H | reflexivity].
  - destruct v; [discriminate|]. intros _. eexists. split; [reflexivity|].
    discriminate.
  - intros (v0 & [= <-] & Hv). destruct v; [contradiction | reflexivity].
  - intros _. eexists. split; [reflexivity | discriminate].
Qed.

(** X14.  Whatever the request and the world, the endpoint returns, in one
    of three ways.  With code 400 and the progress record untouched,
    exactly when the body is a dictionary whose URL is missing or falsy.
    With code 500, the record's status ['error'] and its error the message
    returned: when the body cannot be read or is not a dictionary, with
    the text of that exception and the rest of the record as it was, or
    when the URL is truthy and the run fails.  Or with the report, the URL
    truthy, the record then at ['complete'], 100 percent, no error, and as
    many current as total clips. *)
Theorem X14_endpoint_outcomes
    (cfg : Config) (w : World)
    (other_download : list HookEvent * Result (string * Metadata))
    (body : Body) (s : ProgressState) :
  exists response s',
    generate_shorts_endpoint cfg w other_download body s
    = Some (response, s')
    /\ match response with
       | JsonError msg code =>
           (code = 400 /\ msg = "URL is required" /\ s' = s
            /\ is_dict body = true /\ url_truthy body = false)
           \/ (code = 500 /\ status s' = "error" /\ error s' = Some msg
               /\ (is_dict body = false \/ url_truthy body = true)
               /\ forall e, body = BodyRaises e \/ body = BodyNotDict e ->
                            msg = str_exn e
                            /\ s' = mkProgress "error" (message s)
                                      (progress s) (total_clips s)
                                      (current_clip s) (Some (str_exn e)))
       | JsonReport _ =>
           status s' = "complete" /\ progress s' = 100
           /\ total_clips s' = current_clip s' /\ error s' = None
           /\ url_truthy body = true
       end.
Proof.
  destruct body as [e|e|u od].
  - exists (JsonError (str_exn e) 500), (error_handler e s).
    split; [reflexivity|]. right. repeat split; auto.
    all: destruct H as [[= <-]|H]; [reflexivity | discriminate H].
  - exists (JsonError (str_exn e) 500), (error_handler e s).
    split; [reflexivity|]. right. repeat split; auto.
    all: destruct H as [H|[= <-]]; [discriminate H | reflexivity].
  - cbn [generate_shorts_endpoint].
    destruct (generate_shorts_outcomes cfg (world_of w other_download u od)
                (data_of u od) s) as (response & s' & Hgs & Hout).
    exists response, s'. split; [exact Hgs|].
    destruct (url_truthy_data_of u od) as [Hfalse Htrue].
    destruct response as [msg code|r].
    + destruct Hout as [(H1 & H2 & H3 & H4)|(H1 & H2 & H3 & H4)].
      * left. repeat split; auto. apply Hfalse, H4.
      * right. repeat split; auto.
        -- right. apply Htrue, H4.
        -- destruct H as [H|H]; discriminate H.
        -- destruct H as [H|H]; discriminate H.
    + destruct Hout as (H1 & H2 & H3 & H4 & H5).
      repeat split; auto. apply Htrue, H5.
Qed.

(** A body that is not a dictionary: the handler's patch and nothing
    else. *)
Lemma X14_witness :
  exists response s',
    generate_shorts_endpoint default_Config failing_World
      ([], Raise (Exception "not a URL"))
      (BodyNotDict (Exception "'NoneType' object has no attribute 'get'"))
      progress_state_init
    = Some (response, s')
    /\ response
       = JsonError "'NoneType' object has no attribute 'get'" 500
    /\ s' = mkProgress "error" [Lit ""] 0 0 0
              (Some "'NoneType' object has no attribute 'get'").
Proof.
  destruct (X14_endpoint_outcomes default_Config failing_World
              ([], Raise (Exception "not a URL"))
              (BodyNotDict
                 (Exception "'NoneType' object has no attribute 'get'"))
              progress_state_init) as (response & s' & Hgs & Hout).
  exists response, s'. split; [exact Hgs|].
  destruct response as [msg code|r].
  - destruct Hout as [(_ & _ & _ & Hd & _)|(_ & _ & _ & _ & He)];
      [discriminate Hd|].
    destruct (He (Exception "'NoneType' object has no attribute 'get'")
                (or_intror eq_refl)) as [-> ->].
    revert Hgs. cbn. intros [= <-]. split; reflexivity.
  - revert Hgs. cbn. discriminate.
Defined.

Lemma all_fail_no_clips (cfg : Config)
    (subprocess_run : nat -> list Arg -> RunResult)
    (video_path clean_title : string) (cb : option callback_type)
    (total : nat) (segments : list Segment) (s : ProgressState) :
  (forall i cmd file_size,
      subprocess_run i cmd = Completed 0 true file_size ->
      file_size <= 500000) ->
  fst (clips_loop cfg subprocess_run video_path clean_title cb total 0
         segments [] s) = [].
Proof.
  intros Hfail.
  assert (H : Forall (fun _ => False)
                (fst (clips_loop cfg subprocess_run video_path clean_title
                        cb total 0 segments [] s))).
  { apply clips_loop_Forall; [|constructor].
    intros i segment fs Hrun Hfs. apply Hfail in Hrun. lia. }
  destruct (fst _) as [|c l]; [reflexivity|]. now inversion H.
Qed.

(** When the batch yields no clip the run ends in the handler, provided no
    file named 'No clips were created' can be read. *)
Lemma generate_shorts_without_clips (cfg : Config) (w : World)
    (u : string) (od : option string) (s : ProgressState)
    (events : list HookEvent) (video_path : string) (metadata : Metadata)
    (e : exn) :
  u <> "" ->
  w_download w u = (events, Ok (video_path, metadata)) ->
  (forall s0, exists s1,
      create_all_30sec_clips cfg (w_probe w) (w_run w) video_path
        (md_title metadata) (Some update_progress) s0 = Some ([], s1)) ->
  w_read_json w (mkPath None [Lit "No clips were created"]) = Raise e ->
  generate_shorts cfg w (mkRequest (Some u) od) s
  = Some (JsonError (str_exn e) 500,
          mkProgress "error" [Lit "Creating final report..."] 90 0 0
                     (Some (str_exn e))).
Proof.
  intros Hu Hdl Hnone Hread.
  unfold generate_shorts, generate_shorts_body. cbn [url].
  destruct u as [|c u]; [contradiction|].
  unfold download_video. rewrite Hdl.
  match goal with
  | |- context [create_all_30sec_clips cfg ?p ?r ?v ?t ?cb ?s0] =>
      destruct (Hnone s0) as (s1 & ->)
  end.
  cbn [generate_comprehensive_report]. rewrite Hread. reflexivity.
Qed.

(** X15.  If the download succeeds but every encode fails, the run creates
    no clip and ends as an error: there is no report to read back, the
    endpoint answers 500, and the record keeps the message and the 90
    percent of the milestone 'Creating final report...' under status
    ['error']. *)
Theorem X15_all_encodes_failing_is_an_error
    (cfg : Config) (w : World) (u : string) (od : option string)
    (s : ProgressState) (events : list HookEvent) (video_path : string)
    (metadata : Metadata) (e : exn) :
  u <> "" ->
  w_download w u = (events, Ok (video_path, metadata)) ->
  (forall i cmd file_size,
      w_run w i cmd = Completed 0 true file_size -> file_size <= 500000) ->
  w_read_json w (mkPath None [Lit "No clips were created"]) = Raise e ->
  generate_shorts cfg w (mkRequest (Some u) od) s
  = Some (JsonError (str_exn e) 500,
          mkProgress "error" [Lit "Creating final report..."] 90 0 0
                     (Some (str_exn e))).
Proof.
  intros Hu Hdl Hfail Hread.
  apply (generate_shorts_without_clips cfg w u od s events video_path
           metadata e Hu Hdl); [|exact Hread].
  intros s0. unfold create_all_30sec_clips.
  destruct (w_probe w video_path) as [d|e']; [|eauto].
  destruct (calculate_all_clip_segments_ok cfg d) as (segments & -> & _).
  destruct segments as [|seg segments]; [eauto|].
  set (r := clips_loop _ _ _ _ _ _ _ _ _ _).
  exists (snd r).
  assert (Hfst : fst r = []) by (apply all_fail_no_clips; exact Hfail).
  destruct r as [clips s1]. simpl in Hfst. now subst clips.
Qed.

Lemma X15_witness :
  generate_shorts default_Config
    (mkWorld (w_download one_missing_World) (w_probe one_missing_World)
             (fun _ _ => Completed 1 false 0)
             (w_write_json one_missing_World)
             (w_read_json one_missing_World) (w_now one_missing_World))
    (mkRequest (Some "u") None) progress_state_init
  = Some (JsonError "cannot read" 500,
          mkProgress "error" [Lit "Creating final report..."] 90 0 0
                     (Some "cannot read")).
Proof.
  apply (X15_all_encodes_failing_is_an_error default_Config _ "u" None
           progress_state_init
           [HookDownloading (Some 50%Q); HookFinished] "downloads/v.mp4"
           sample_metadata (Exception "cannot read")).
  - discriminate.
  - reflexivity.
  - intros i cmd fs H. discriminate H.
  - reflexivity.
Defined.

(** X16.  A video shorter than 25 seconds, downloaded successfully, ends
    the same way whatever the encoder would do: no window is planned, no
    clip is created, and the endpoint answers 500 with the record at
    status ['error'], message 'Creating final report...', 90 percent. *)
Theorem X16_too_short_video_is_an_error
    (w : World) (u : string) (od : option string)
    (s : ProgressState) (events : list HookEvent) (video_path : string)
    (metadata : Metadata) (d : Q) (e : exn) :
  u <> "" ->
  w_download w u = (events, Ok (video_path, metadata)) ->
  w_probe w video_path = Ok d ->
  (d < 25)%Q ->
  w_read_json w (mkPath None [Lit "No clips were created"]) = Raise e ->
  generate_shorts default_Config w (mkRequest (Some u) od) s
  = Some (JsonError (str_exn e) 500,
          mkProgress "error" [Lit "Creating final report..."] 90 0 0
                     (Some (str_exn e))).
Proof.
  intros Hu Hdl Hprobe Hd Hread.
  apply (generate_shorts_without_clips default_Config w u od s events
           video_path metadata e Hu Hdl); [|exact Hread].
  intros s0. unfold create_all_30sec_clips. rewrite Hprobe.
  rewrite (short_plan_empty d Hd). eauto.
Qed.

Lemma X16_witness :
  generate_shorts default_Config short_video_World
    (mkRequest (Some "u") None) progress_state_init
  = Some (JsonError "No such file or directory" 500,
          mkProgress "error" [Lit "Creating final report..."] 90 0 0
                     (Some "No such file or directory")).
Proof.
  apply (X16_too_short_video_is_an_error short_video_World "u" None
           progress_state_init [] "downloads/v.mp4"
           (mkMetadata "t" 10 "u" "" 0 "20250101") 10
           (Exception "No such file or directory")).
  - discriminate.
  - reflexivity.
  - reflexivity.
  - reflexivity.
  - reflexivity.
Defined.

(** X20.  When the endpoint returns a report (and no file named 'No clips
    were created' can be read), the report is the one of this run: it
    lists at least one clip, and the number of clips it lists is the
    number the progress record shows as total and as current. *)
Theorem X20_report_matches_progress
    (cfg : Config) (w : World) (data : Request) (s s' : ProgressState)
    (r : Report) (e : exn) :
  w_read_json w (mkPath None [Lit "No clips were created"]) = Raise e ->
  generate_shorts cfg w data s = Some (JsonReport r, s') ->
  total_clips_created r = Z.of_nat (List.length (clip_details r))
  /\ 1 <= total_clips_created r
  /\ total_clips s' = total_clips_created r
  /\ current_clip s' = total_clips_created r.
Proof.
  intros Hread. unfold generate_shorts.
  destruct (generate_shorts_body cfg w data s) as [[[resp|e'] s1]|] eqn:Hb;
    try discriminate.
  intros [= -> ->]. revert Hb. unfold generate_shorts_body.
  destruct (url data) as [[|c u]|]; try discriminate.
  destruct (download_video w _ _) as [[[[vp t] md]|e'] s2]; [|discriminate].
  destruct (create_all_30sec_clips _ _ _ _ _ _ _) as [[clips s3]|];
    [|discriminate].
  destruct clips as [|c0 clips].
  - cbn [generate_comprehensive_report]. rewrite Hread. discriminate.
  - destruct (build_report_nonempty (c0 :: clips) md (w_now w))
      as (r0 & _ & Hr0 & _ & _ & _ & Hcount & Hdetails & _);
      [discriminate|].
    cbn [generate_comprehensive_report]. rewrite Hr0.
    destruct (w_write_json w _ _); [|discriminate].
    intros [= <- <-]. rewrite Hcount, Hdetails.
    cbn [total_clips current_clip update_progress]. simpl List.length.
    repeat split; lia.
Qed.

Lemma X20_witness :
  exists r s',
    generate_shorts default_Config one_missing_World
      (mkRequest (Some "u") None) progress_state_init
    = Some (JsonReport r, s')
    /\ total_clips s' = total_clips_created r
    /\ total_clips_created r = 3.
Proof.
  destruct (generate_shorts default_Config one_missing_World
              (mkRequest (Some "u") None) progress_state_init)
    as [[[msg code|r] s']|] eqn:Hgs; try discriminate Hgs.
  exists r, s'. split; [reflexivity|].
  destruct (X20_report_matches_progress default_Config one_missing_World
              (mkRequest (Some "u") None) progress_state_init s' r
              (Exception "cannot read") eq_refl Hgs) as (_ & _ & Ht & _).
  split; [exact Ht|].
  injection Hgs as Hr _. rewrite <- Hr. reflexivity.
Defined.

(** ** The download phase *)

Lemma progress_hook_cases (d : HookEvent) (s : ProgressState) :
  match d with
  | HookDownloading (Some p) => (0 <= p)%Q /\ (p <= 100)%Q
  | _ => True
  end ->
  progress_hook d s = s
  \/ (status (progress_hook d s) = "downloading"
      /\ 10 <= progress (progress_hook d s) <= 30
      /\ error (progress_hook d s) = None).
Proof.
  destruct d as [[p|]| |]; intros Hp; try (now left).
  - right. destruct Hp as [H0 H100].
    unfold progress_hook, update_progress. cbn [status progress error].
    split; [reflexivity|]. split; [|reflexivity].
    rewrite int_of_Q_nonneg by lra.
    assert (H10 : (inject_Z 10 <= 10 + p * (2 # 10))%Q)
      by (change (inject_Z 10) with 10%Q; lra).
    assert (H30 : (10 + p * (2 # 10) <= inject_Z 30)%Q)
      by (change (inject_Z 30) with 30%Q; lra).
    apply Qfloor_resp_le in H10, H30. rewrite Qfloor_Z in H10, H30.
    lia.
  - right. cbn. repeat split; lia.
Qed.

(** X17.  While the download runs, whatever the downloader reports, with
    percentages from 0 to 100, the progress record either stays as it was
    or shows status ['downloading'], no error and a percentage from 10 to
    30; a report whose percentage does not parse, or of another status,
    changes nothing. *)
Theorem X17_download_progress_between_10_and_30
    (w : World) (url : string) (s : ProgressState) :
  Forall (fun d => match d with
                   | HookDownloading (Some p) => (0 <= p)%Q /\ (p <= 100)%Q
                   | _ => True
                   end) (fst (w_download w url)) ->
  let s' := snd (download_video w url s) in
  (s' = s
   \/ (status s' = "downloading" /\ 10 <= progress s' <= 30
       /\ error s' = None))
  /\ progress_hook (HookDownloading None) s = s
  /\ progress_hook HookOther s = s.
Proof.
  intros Hall s'. split; [|split; reflexivity].
  assert (Hs : s' = fold_left (fun s d => progress_hook d s)
                      (fst (w_download w url)) s).
  { unfold s', download_video.
    destruct (w_download w url) as [events [[vp md]|e]]; reflexivity. }
  rewrite Hs. clear Hs s'.
  assert (Hgen : forall s0,
             s0 = s \/ (status s0 = "downloading" /\ 10 <= progress s0 <= 30
                        /\ error s0 = None) ->
             let s1 := fold_left (fun s d => progress_hook d s)
                         (fst (w_download w url)) s0 in
             s1 = s \/ (status s1 = "downloading" /\ 10 <= progress s1 <= 30
                        /\ error s1 = None)).
  { induction Hall as [|d l Hd _ IH]; intros s0 H0; [exact H0|].
    cbn [fold_left]. apply IH.
    destruct (progress_hook_cases d s0 Hd) as [-> | H]; [exact H0|].
    right. exact H. }
  apply Hgen. now left.
Qed.

Lemma X17_witness :
  let s' := snd (download_video one_missing_World "u" progress_state_init) in
  s' = progress_state_init
  \/ (status s' = "downloading" /\ 10 <= progress s' <= 30
      /\ error s' = None).
Proof.
  apply (X17_download_progress_between_10_and_30 one_missing_World "u"
           progress_state_init).
  repeat constructor; discriminate.
Defined.

(** ** The commands of a plan *)

Lemma numbered_from_1_positive (segments : list Segment) :
  numbered_from_1 segments ->
  Forall (fun s => 1 <= clip_number s) segments.
Proof.
  unfold numbered_from_1. intros Hn. apply Forall_forall. intros s Hs.
  apply (in_map clip_number) in Hs. rewrite Hn in Hs.
  apply in_map_iff in Hs. destruct Hs as (k & <- & Hk).
  apply in_seq in Hk. lia.
Qed.

(** X18.  For every window of a configured plan, the command built for it
    asks the encoder to seek to the window's start, which is not negative,
    and to read its duration, which ends no later than the video; and in
    its filter chain the fade-out begins after the fade-in is over and ends
    exactly with the window. *)
Theorem X18_commands_of_a_plan_stay_inside_the_video (d : Q) :
  exists segments,
    calculate_all_clip_segments default_Config d = Some segments
    /\ Forall (fun segment =>
         (forall video_path output_path,
            nth_error (ffmpeg_cmd default_Config video_path segment
                         output_path) 3
            = Some (Text [Num (start_time segment)])
            /\ nth_error (ffmpeg_cmd default_Config video_path segment
                            output_path) 7
               = Some (Text [Num (duration segment)]))
         /\ (0 <= start_time segment)%Q
         /\ (start_time segment + duration segment <= d)%Q
         /\ exists a,
              value_after "afade=t=out:st="
                (audio_filters default_Config (duration segment)) = Some a
              /\ (AUDIO_FADE_DURATION default_Config < a)%Q
              /\ (a + AUDIO_FADE_DURATION default_Config
                  == duration segment)%Q) segments.
Proof.
  destruct (calculate_all_clip_segments_ok default_Config d)
    as (segments & Heq & [_ Hn Hs]).
  pose proof (plan_starts default_Config d segments Heq) as Hst.
  apply numbered_from_1_positive in Hn.
  exists segments. split; [exact Heq|].
  rewrite Forall_forall in *. intros seg Hin.
  destruct (Hs seg Hin) as [Hend Hk]. destruct (Hst seg Hin) as [Hstart Hdu].
  specialize (Hn seg Hin).
  assert (Hd : (25 <= duration seg)%Q).
  { destruct (is_final_clip seg).
    - now destruct Hk as (_ & _ & Hmin & _).
    - destruct Hk as [-> _]. discriminate. }
  split; [intros; split; reflexivity|]. split; [|split].
  - rewrite Hstart. change 0%Q with (inject_Z 0). rewrite <- Zle_Qle.
    change (step_size default_Config) with 25. lia.
  - lra.
  - exists (duration seg - (2 # 10))%Q. split; [reflexivity|].
    change (AUDIO_FADE_DURATION default_Config) with (2 # 10)%Q.
    split; lra.
Qed.
